(** * The Ceilometer-to-Gnocchi dispatcher (gnocchi/ceilometer/dispatcher.py)

    A shallow embedding of [GnocchiDispatcher]: the grouping of a batch of
    samples with [itertools.groupby], the plugin registry, the four REST
    operations against Gnocchi and the create/post/retry workflow of
    [_process_samples], with the exceptions it uses as control flow. *)

From stdpp Require Import gmap strings list fin_maps pretty.
From Stdlib Require Import ZArith Lia.

Local Open Scope string_scope.
Local Open Scope list_scope.
Local Set Warnings "-register-all".

(** ** Data model *)

(** JSON-serialisable Python values: what a sample field, a resource
    attribute or a request body can hold. *)
Inductive json : Type :=
| JNull
| JNum (z : Z)
| JStr (s : string)
| JList (l : list json)
| JObj (m : gmap string json).

(** A ceilometer sample is a dict; the dispatcher reads these keys with
    [operator.itemgetter] and [sample[...]].  [resource_metadata] is only
    read by the resource plugins. *)
Record Sample : Type := mkSample {
  resource_id : string;
  counter_name : string;
  timestamp : json;
  counter_volume : json;
  user_id : json;
  project_id : json;
  resource_metadata : json
}.

(** ** [itertools.groupby]

    The iterator walks the input once, left to right.  It keeps the key of
    the group being produced ([tgtkey]) and closes the group at the first
    element whose key differs; it never looks back, so equal keys that are
    not adjacent open a new group.  [acc] holds the current group, most
    recent element first. *)
Fixpoint groupby_from {A K : Type} `{EqDecision K} (key : A → K)
    (tgtkey : K) (acc : list A) (l : list A) : list (K * list A) :=
  match l with
  | [] => [(tgtkey, reverse acc)]
  | x :: l' =>
      if decide (key x = tgtkey)
      then groupby_from key tgtkey (x :: acc) l'
      else (tgtkey, reverse acc) :: groupby_from key (key x) [x] l'
  end.

Definition groupby {A K : Type} `{EqDecision K} (key : A → K)
    (l : list A) : list (K * list A) :=
  match l with
  | [] => []
  | x :: l' => groupby_from key (key x) [x] l'
  end.

(** The two nested [groupby] of [record_metering_data]: by ['resource_id'],
    then, on [list(samples_of_resource)], by ['counter_name']. *)
Definition entity_grouped_samples (samples_of_resource : list Sample)
    : list (string * list Sample) :=
  groupby counter_name samples_of_resource.

Definition resource_grouped_samples (data : list Sample)
    : list (string * list Sample) :=
  groupby resource_id data.

Definition grouped_samples (data : list Sample)
    : list (string * list (string * list Sample)) :=
  (λ g, (g.1, entity_grouped_samples g.2)) <$> resource_grouped_samples data.

(** All samples of the groups, in the order the loops visit them. *)
Definition visited_samples (groups : list (string * list (string * list Sample)))
    : list Sample :=
  concat ((λ g, concat (snd <$> g.2)) <$> groups).

(** *** The grouping as the specification words it

    Groups keyed by the distinct keys in first-seen order, each group
    holding every element of the input with that key. *)
Fixpoint first_seen {K : Type} `{EqDecision K} (ks : list K) : list K :=
  match ks with
  | [] => []
  | k :: ks' => k :: filter (λ k', k' ≠ k) (first_seen ks')
  end.

Definition spec_group {A K : Type} `{EqDecision K} (key : A → K)
    (l : list A) : list (K * list A) :=
  (λ k, (k, filter (λ x, key x = k) l)) <$> first_seen (key <$> l).

Definition spec_grouped_samples (data : list Sample)
    : list (string * list (string * list Sample)) :=
  (λ g, (g.1, spec_group counter_name g.2)) <$> spec_group resource_id data.

(** Elements with equal keys are adjacent: at each position, either the next
    element has the same key or the key never occurs again. *)
Fixpoint adjacent_keys {A K : Type} `{EqDecision K} (key : A → K)
    (l : list A) : bool :=
  match l with
  | [] => true
  | x :: l' =>
      (bool_decide (head (key <$> l') = Some (key x))
       || bool_decide (key x ∉ key <$> l'))
      && adjacent_keys key l'
  end.

(** ** The resource plugins

    The plugin classes loaded by [stevedore] are not part of the dispatcher
    module; the dispatcher uses an extension through its [name] and the two
    methods of its [obj], which are taken here as the interface.
    [get_resource_extra_attributes] builds a new dict at every call. *)
Record ResourceBase : Type := mkResourceBase {
  get_entities_names : list string;
  get_resource_extra_attributes : Sample → gmap string json
}.

Record Extension : Type := mkExtension {
  name : string;
  obj : ResourceBase
}.

(** ** HTTP requests and the remote store *)

Inductive Method : Type := POST | PATCH.

Record Request : Type := mkRequest {
  method : Method;
  url : string;
  headers : list (string * string);
  data : string
}.

Record Response : Type := mkResponse {
  status_code : Z;
  text : string
}.

(** What the dispatcher takes from its platform: [json.dumps] and the
    [requests] library talking to a Gnocchi whose state is [Store].  The
    store may answer any request with any status. *)
Class Platform (Store : Type) : Type := mkPlatform {
  json_dumps : json → string;
  requests_request : Request → Store → Response * Store
}.

(** ** Exceptions and log records *)

(** The texts of the module's messages, kept with their arguments. *)
Inductive Message : Type :=
| EntityDoesntExist (entity_name resource_id : string) (status : Z)
| FailToPostMeasure (entity_name resource_id : string) (status : Z) (msg : string)
| MeasurePosted (entity_name resource_id : string)
| ResourceExists (resource_id : string)
| ResourceCreationFailed (resource_id : string) (status : Z) (msg : string)
| ResourceCreated (resource_id : string)
| ResourceUpdateFailed (resource_id : string) (status : Z) (msg : string)
| ResourceUpdated (resource_id : string)
| EntityExists (entity_name resource_id : string)
| FailToCreateEntity (entity_name resource_id : string) (status : Z) (msg : string)
| EntityCreated (entity_name resource_id : string).

Inductive exn : Type :=
| UnexpectedWorkflowError (m : Message)
| NoSuchEntity
| EntityAlreadyExists
| NoSuchResource
| ResourceAlreadyExists
| IndexError.

Inductive Level : Type := DEBUG | ERROR.

(** ** The dispatcher's effects: a state and exception monad

    A computation runs from a world (the remote store, the HTTP calls issued
    so far, the log) and either returns or raises. *)
Record World (Store : Type) : Type := mkWorld {
  remote : Store;
  calls : list Request;
  LOG : list (Level * Message)
}.
Arguments mkWorld {Store} _ _ _.
Arguments remote {Store} _.
Arguments calls {Store} _.
Arguments LOG {Store} _.

Inductive Outcome (A : Type) : Type :=
| Return (a : A)
| Raise (e : exn).
Arguments Return {A} _.
Arguments Raise {A} _.

Definition M (Store : Type) (A : Type) : Type :=
  World Store → Outcome A * World Store.

Global Instance M_ret {Store : Type} : MRet (M Store) :=
  λ A a w, (Return a, w).

Global Instance M_bind {Store : Type} : MBind (M Store) :=
  λ A B k m w,
    match m w with
    | (Return a, w') => k a w'
    | (Raise e, w') => (Raise e, w')
    end.

Definition raise {Store A : Type} (e : exn) : M Store A :=
  λ w, (Raise e, w).

Definition log {Store : Type} (lvl : Level) (m : Message) : M Store () :=
  λ w, (Return (), mkWorld (remote w) (calls w) (LOG w ++ [(lvl, m)])).

(** [try: body / except: handler]; [handler e = None] when no [except]
    clause matches [e], which is then raised again. *)
Definition try_except {Store A : Type} (body : M Store A)
    (handler : exn → option (M Store A)) : M Store A :=
  λ w,
    match body w with
    | (Return a, w') => (Return a, w')
    | (Raise e, w') =>
        match handler e with
        | Some h => h w'
        | None => (Raise e, w')
        end
    end.

(** [try: body / except: handler / else: orelse]; the [else] suite is not
    protected by the [except] clauses. *)
Definition try_except_else {Store A B : Type} (body : M Store A)
    (handler : exn → option (M Store B)) (orelse : A → M Store B)
    : M Store B :=
  λ w,
    match body w with
    | (Return a, w') => orelse a w'
    | (Raise e, w') =>
        match handler e with
        | Some h => h w'
        | None => (Raise e, w')
        end
    end.

(** A [for] loop whose body returns nothing. *)
Fixpoint for_each {Store A : Type} (l : list A) (body : A → M Store ())
    : M Store () :=
  match l with
  | [] => mret ()
  | x :: l' => body x ;; for_each l' body
  end.

(** [requests.post] and [requests.patch]: one round trip, recorded. *)
Definition requests {Store : Type} `{!Platform Store} (r : Request)
    : M Store Response :=
  λ w,
    let '(resp, st) := requests_request r (remote w) in
    (Return resp, mkWorld st (calls w ++ [r]) (LOG w)).

(** ** [GnocchiDispatcher] *)

(** The attributes [__init__] sets: the URL and archive policy read from the
    configuration and the extension manager, iterated in load order. *)
Record GnocchiDispatcher : Type := mkGnocchiDispatcher {
  gnocchi_url : string;
  archive_policy : string;
  mgmr : list Extension
}.

(** [self.gnocchi_archive_policy], the dict [{'archive_policy': ...}]. *)
Definition gnocchi_archive_policy (self : GnocchiDispatcher) : json :=
  JObj {[ "archive_policy" := JStr (archive_policy self) ]}.

(** [dict(pairs)]: a later pair overrides an earlier one with the same key. *)
Definition dict (pairs : list (string * json)) : gmap string json :=
  foldl (λ d kv, <[kv.1 := kv.2]> d) ∅ pairs.

Definition content_type_json : list (string * string) :=
  [("Content-Type", "application/json")].

(** [int(r.status_code / 100) != 2] *)
Definition not_2xx (status : Z) : bool := negb (status / 100 =? 2)%Z.

(** An HTTP status of the 2xx class. *)
Definition is_2xx (status : Z) : Prop := (status / 100 = 2)%Z.

(** The extensions that own a metric name. *)
Definition owners (entity_name : string) (exts : list Extension)
    : list Extension :=
  filter (λ ext, entity_name ∈ get_entities_names (obj ext)) exts.

Section dispatcher.
Context {Store : Type} `{!Platform Store} (self : GnocchiDispatcher).

Definition post_measure_request (resource_type resource_id entity_name : string)
    (measure_attributes : json) : Request :=
  mkRequest POST
    (gnocchi_url self +:+ "/v1/resource/" +:+ resource_type +:+ "/"
       +:+ resource_id +:+ "/entity/" +:+ entity_name +:+ "/measures")
    content_type_json (json_dumps measure_attributes).

Definition create_resource_request (resource_type : string)
    (resource_attributes : gmap string json) : Request :=
  mkRequest POST
    (gnocchi_url self +:+ "/v1/resource/" +:+ resource_type)
    content_type_json (json_dumps (JObj resource_attributes)).

Definition update_resource_request (resource_type resource_id : string)
    (resource_attributes : gmap string json) : Request :=
  mkRequest PATCH
    (gnocchi_url self +:+ "/v1/resource/" +:+ resource_type +:+ "/"
       +:+ resource_id)
    content_type_json (json_dumps (JObj resource_attributes)).

Definition create_entity_request (resource_type resource_id entity_name : string)
    : Request :=
  mkRequest POST
    (gnocchi_url self +:+ "/v1/resource/" +:+ resource_type +:+ "/"
       +:+ resource_id +:+ "/entity")
    content_type_json
    (json_dumps (JObj {[ entity_name := gnocchi_archive_policy self ]})).

Definition _post_measure (resource_type resource_id entity_name : string)
    (measure_attributes : json) : M Store () :=
  r ← requests (post_measure_request resource_type resource_id entity_name
                  measure_attributes);
  if (status_code r =? 404)%Z then
    log DEBUG (EntityDoesntExist entity_name resource_id (status_code r));;
    raise NoSuchEntity
  else if not_2xx (status_code r) then
    raise (UnexpectedWorkflowError
             (FailToPostMeasure entity_name resource_id (status_code r)
                (text r)))
  else log DEBUG (MeasurePosted entity_name resource_id).

Definition _create_resource (resource_type resource_id : string)
    (resource_attributes : gmap string json) : M Store () :=
  r ← requests (create_resource_request resource_type resource_attributes);
  if (status_code r =? 409)%Z then
    log DEBUG (ResourceExists resource_id);;
    raise ResourceAlreadyExists
  else if not_2xx (status_code r) then
    raise (UnexpectedWorkflowError
             (ResourceCreationFailed resource_id (status_code r) (text r)))
  else log DEBUG (ResourceCreated resource_id).

Definition _update_resource (resource_type resource_id : string)
    (resource_attributes : gmap string json) : M Store () :=
  r ← requests (update_resource_request resource_type resource_id
                  resource_attributes);
  if not_2xx (status_code r) then
    raise (UnexpectedWorkflowError
             (ResourceUpdateFailed resource_id (status_code r) (text r)))
  else log DEBUG (ResourceUpdated resource_id).

Definition _create_entity (resource_type resource_id entity_name : string)
    : M Store () :=
  r ← requests (create_entity_request resource_type resource_id entity_name);
  if (status_code r =? 409)%Z then
    log DEBUG (EntityExists entity_name resource_id);;
    raise EntityAlreadyExists
  else if not_2xx (status_code r) then
    raise (UnexpectedWorkflowError
             (FailToCreateEntity entity_name resource_id (status_code r)
                (text r)))
  else log DEBUG (EntityCreated entity_name resource_id).

(** The attributes set on top of the plugin's when [for_update] is false. *)
Definition create_attributes (ext : Extension) (resource_id : string)
    (sample : Sample) (attributes : gmap string json) : gmap string json :=
  <["entities" :=
      JObj (dict ((λ entity_name, (entity_name, gnocchi_archive_policy self))
                    <$> get_entities_names (obj ext)))]>
    (<["project_id" := project_id sample]>
       (<["user_id" := user_id sample]>
          (<["id" := JStr resource_id]> attributes))).

(** [samples[-1]] raises [IndexError] on an empty list. *)
Definition _get_resource_attributes (ext : Extension)
    (resource_id entity_name : string) (samples : list Sample)
    (for_update : bool) : M Store (gmap string json) :=
  match last samples with
  | None => raise IndexError
  | Some sample =>
      let attributes := get_resource_extra_attributes (obj ext) sample in
      if for_update then mret attributes
      else mret (create_attributes ext resource_id sample attributes)
  end.

Definition measure_attributes_of (samples : list Sample) : json :=
  JList ((λ sample, JObj {[ "timestamp" := timestamp sample;
                            "value" := counter_volume sample ]})
           <$> samples).

(** The body of [_process_samples], before the decorator. *)
Definition process_samples_body (ext : Extension)
    (resource_id entity_name : string) (samples : list Sample)
    (resource_need_to_be_updated : bool) : M Store () :=
  let resource_type := name ext in
  let measure_attributes := measure_attributes_of samples in
  resource_need_to_be_updated ←
    try_except
      (_post_measure resource_type resource_id entity_name
         measure_attributes;;
       mret resource_need_to_be_updated)
      (λ e,
         match e with
         | NoSuchEntity => Some (
             resource_attributes ←
               _get_resource_attributes ext resource_id entity_name samples
                 false;
             resource_need_to_be_updated ←
               try_except_else
                 (_create_resource resource_type resource_id
                    resource_attributes)
                 (λ e,
                    match e with
                    | ResourceAlreadyExists => Some (
                        try_except
                          (_create_entity resource_type resource_id
                             entity_name)
                          (λ e,
                             match e with
                             | EntityAlreadyExists => Some (mret ())
                             | _ => None
                             end);;
                        mret resource_need_to_be_updated)
                    | _ => None
                    end)
                 (λ _, mret false);
             _post_measure resource_type resource_id entity_name
               measure_attributes;;
             mret resource_need_to_be_updated)
         | _ => None
         end);
  if (resource_need_to_be_updated : bool) then
    resource_attributes ←
      _get_resource_attributes ext resource_id entity_name samples true;
    _update_resource resource_type resource_id resource_attributes
  else mret ().

(** The decorator: only [UnexpectedWorkflowError] is caught and logged. *)
Definition log_and_ignore_unexpected_workflow_error (func : M Store ())
    : M Store () :=
  try_except func
    (λ e,
       match e with
       | UnexpectedWorkflowError m => Some (log ERROR m)
       | _ => None
       end).

Definition _process_samples (ext : Extension)
    (resource_id entity_name : string) (samples : list Sample)
    (resource_need_to_be_updated : bool) : M Store () :=
  log_and_ignore_unexpected_workflow_error
    (process_samples_body ext resource_id entity_name samples
       resource_need_to_be_updated).

(** [for ext in self.mgmr] for one metric group.  [samples] is the
    group's iterator: [list(samples)] drains it, so the first extension
    that owns the metric gets the group and a later one gets []. *)
Fixpoint for_ext (exts : list Extension) (resource_id entity_name : string)
    (samples : list Sample) (resource_need_to_be_updated : bool)
    : M Store () :=
  match exts with
  | [] => mret ()
  | ext :: exts' =>
      if bool_decide (entity_name ∈ get_entities_names (obj ext)) then
        _process_samples ext resource_id entity_name samples
          resource_need_to_be_updated;;
        for_ext exts' resource_id entity_name [] resource_need_to_be_updated
      else
        for_ext exts' resource_id entity_name samples
          resource_need_to_be_updated
  end.

(** The loops of [record_metering_data] over already grouped samples;
    [resource_need_to_be_updated] is set to [True] for each resource and
    the assignment that would clear it is commented out. *)
Definition dispatch_groups
    (groups : list (string * list (string * list Sample))) : M Store () :=
  for_each groups (λ resource_group,
    let resource_id := resource_group.1 in
    let resource_need_to_be_updated := true in
    for_each resource_group.2 (λ entity_group,
      for_ext (mgmr self) resource_id entity_group.1 entity_group.2
        resource_need_to_be_updated)).

Definition record_metering_data (data : list Sample) : M Store () :=
  dispatch_groups (grouped_samples data).

(** The requests of a unit; [sample] is the last sample of the group. *)
Definition unit_post (ext : Extension) (resource_id entity_name : string)
    (samples : list Sample) : Request :=
  post_measure_request (name ext) resource_id entity_name
    (measure_attributes_of samples).

Definition unit_create (ext : Extension) (resource_id : string)
    (sample : Sample) : Request :=
  create_resource_request (name ext)
    (create_attributes ext resource_id sample
       (get_resource_extra_attributes (obj ext) sample)).

Definition unit_create_entity (ext : Extension)
    (resource_id entity_name : string) : Request :=
  create_entity_request (name ext) resource_id entity_name.

Definition unit_update (ext : Extension) (resource_id : string)
    (sample : Sample) : Request :=
  update_resource_request (name ext) resource_id
    (get_resource_extra_attributes (obj ext) sample).
End dispatcher.

(** ** A concrete platform and batch, for the examples

    A serialiser of [json] values and a store that answers the requests it
    receives with the statuses of a script, in order, and with 200 once the
    script is exhausted. *)
Module Example.
Definition dquote : string := String (Ascii.ascii_of_nat 34) "".

Fixpoint dumps (j : json) : string :=
  match j with
  | JNull => "null"
  | JNum z => pretty z
  | JStr s => dquote +:+ s +:+ dquote
  | JList l =>
      "[" +:+ foldr (λ x acc, dumps x +:+
                       (if acc is "" then "" else ", " +:+ acc)) "" l
          +:+ "]"
  | JObj m =>
      "{" +:+ map_fold (λ k v acc, dquote +:+ k +:+ dquote +:+ ": "
                          +:+ dumps v +:+
                          (if acc is "" then "" else ", " +:+ acc)) "" m
          +:+ "}"
  end.

Definition scripted_request (r : Request) (script : list Z)
    : Response * list Z :=
  match script with
  | [] => (mkResponse 200 "", [])
  | status :: script' => (mkResponse status "", script')
  end.

Global Instance scripted : Platform (list Z) :=
  mkPlatform (list Z) dumps scripted_request.

Definition start (script : list Z) : World (list Z) := mkWorld script [] [].

Definition sample (rid metric : string) (t v : Z) : Sample :=
  mkSample rid metric (JNum t) (JNum v) (JStr "user-1") (JStr "project-1")
    (JObj {[ "host" := JStr "compute-1" ]}).

Definition instance : Extension :=
  mkExtension "instance"
    (mkResourceBase ["cpu"; "cpu_util"]
       (λ s, if resource_metadata s is JObj metadata
             then filter (λ kv, kv.1 = "host") metadata else ∅)).

Definition volume : Extension :=
  mkExtension "volume"
    (mkResourceBase ["volume.size"] (λ s, ∅)).

Definition dispatcher : GnocchiDispatcher :=
  mkGnocchiDispatcher "http://localhost:8041" "low" [instance; volume].
End Example.

Import Example.

(** The samples of the examples. *)

Definition cpu_r1 : Sample := sample "r1" "cpu" 1 2.
Definition cpu_r2 : Sample := sample "r2" "cpu" 3 4.
Definition cpu_r1_later : Sample := sample "r1" "cpu" 5 6.
Definition util_r1 : Sample := sample "r1" "cpu_util" 7 8.
Definition disk_r1 : Sample := sample "r1" "disk.read.bytes" 9 10.

(** Samples of r1 separated by a sample of r2. *)
Definition interleaved : list Sample := [cpu_r1; cpu_r2; cpu_r1_later].

(** Samples of one resource, the cpu samples separated by another metric. *)
Definition interleaved_metrics : list Sample := [cpu_r1; util_r1; cpu_r1_later].


(** ** The requests expected of a batch *)

(** The requests of a unit whose post and update both succeed. *)
Definition steady_unit_calls {Store : Type} `{!Platform Store}
    (self : GnocchiDispatcher) (ext : Extension) (resource_id : string)
    (entity_group : string * list Sample) : list Request :=
  unit_post self ext resource_id entity_group.1 entity_group.2
    :: match last entity_group.2 with
       | Some sample => [unit_update self ext resource_id sample]
       | None => []
       end.

(** The requests of a batch on a store that accepts everything: for each
    resource group, each metric group and each owner, in the order of the
    loops. *)
Definition steady_calls {Store : Type} `{!Platform Store}
    (self : GnocchiDispatcher)
    (groups : list (string * list (string * list Sample))) : list Request :=
  resource_group ← groups;
  entity_group ← resource_group.2;
  ext ← owners entity_group.1 (mgmr self);
  steady_unit_calls self ext resource_group.1 entity_group.

(** A request in the wire form of the dispatcher: JSON content type and a
    URL under the resource type of a registered extension. *)
Definition resource_request (self : GnocchiDispatcher) (r : Request) : Prop :=
  headers r = content_type_json
  ∧ ∃ ext rest, ext ∈ mgmr self
      ∧ url r = gnocchi_url self +:+ "/v1/resource/" +:+ name ext +:+ rest.

(** A store that accepts every request with a 200. *)
Module Accepting.
Definition accepting : Platform () :=
  mkPlatform () dumps (λ r s, (mkResponse 200 "", s)).

Definition start : World () := mkWorld () [] [].
End Accepting.

(** * The WSGI bootstrap (gnocchi/rest/app.py)

    [load_app] registers the objects of an application under a new key of
    the module dictionary [APPCONFIGS] and has paste build the application;
    [app_factory], which paste calls back, finds them again by that key. *)
Module App.

Inductive exn : Type :=
| ConfigFilesNotFoundError (config_files : list string)
| TypeError.

Inductive Outcome (A : Type) : Type :=
| Return (a : A)
| Raise (e : exn).
Arguments Return {A} _.
Arguments Raise {A} _.

Section bootstrap.
Context {Conf Storage Indexer Root : Type}.

(** [GnocchiHook(storage, indexer, conf)] *)
Record GnocchiHook : Type := mkGnocchiHook {
  storage : Storage;
  indexer : Indexer;
  conf : Conf
}.

(** The applications [_setup_app] builds: the pecan application, wrapped or
    not in the two middlewares. *)
Inductive WSGIApp : Type :=
| pecan_make_app (root : option Root) (debug : bool) (hooks : list GnocchiHook)
| HTTPExceptionMiddleware (app : WSGIApp)
| NotImplementedMiddleware (app : WSGIApp).

(** The dict [load_app] stores:
    [dict(conf=, indexer=, storage=, not_implemented_middleware=)]. *)
Record Config : Type := mkConfig {
  config_conf : Conf;
  config_indexer : Indexer;
  config_storage : Storage;
  config_not_implemented_middleware : bool
}.

(** The state the bootstrap works on: the module dictionary, the paths that
    exist on disk, the number of identifiers drawn from [uuid.uuid4], the
    indexers [connect] was called on and the messages logged. *)
Record World : Type := mkWorld {
  APPCONFIGS : gmap string Config;
  files : gset string;
  drawn : nat;
  connected : list Indexer;
  LOG : list string
}.

Definition M (A : Type) : Type := World → Outcome A * World.

Definition ret {A : Type} (a : A) : M A := λ w, (Return a, w).

Definition bind {A B : Type} (m : M A) (k : A → M B) : M B :=
  λ w,
    match m w with
    | (Return a, w') => k a w'
    | (Raise e, w') => (Raise e, w')
    end.

Definition raise {A : Type} (e : exn) : M A := λ w, (Raise e, w).

(** What the bootstrap takes from the configuration object and from the
    libraries it calls. *)
Class Services : Type := mkServices {
  paste_config : Conf → string;
  pecan_debug : Conf → bool;
  find_file : Conf → string → option string;
  storage_get_driver : Conf → Storage;
  indexer_get_driver : Conf → Indexer;
  isabs : string → bool;
  uuid4 : nat → string;
  deploy_loadapp : string → option string → gmap string string → M WSGIApp
}.
Context `{!Services}.

Definition indexer_connect (i : Indexer) : M () :=
  λ w, (Return (),
        mkWorld (APPCONFIGS w) (files w) (drawn w) (connected w ++ [i])
          (LOG w)).

Definition path_exists (path : string) : M bool :=
  λ w, (Return (bool_decide (path ∈ files w)), w).

Definition str_uuid4 : M string :=
  λ w, (Return (uuid4 (drawn w)),
        mkWorld (APPCONFIGS w) (files w) (S (drawn w)) (connected w) (LOG w)).

Definition appconfigs_set (configkey : string) (config : Config) : M () :=
  λ w, (Return (),
        mkWorld (<[configkey := config]> (APPCONFIGS w)) (files w) (drawn w)
          (connected w) (LOG w)).

Definition appconfigs_get (configkey : option string) : M (option Config) :=
  λ w, (Return (configkey ≫= (APPCONFIGS w !!.)), w).

Definition log_info (message : string) : M () :=
  λ w, (Return (),
        mkWorld (APPCONFIGS w) (files w) (drawn w) (connected w)
          (LOG w ++ [message])).

(** The statements of [load_app] before the call of [deploy.loadapp]: the
    drivers, the path of the paste configuration, the registration.  It
    returns the path and the key. *)
Definition load_app_register (conf : Conf) (indexer : option Indexer)
    (storage : option Storage) (not_implemented_middleware : bool)
    : M (string * string) :=
  let storage :=
    match storage with
    | Some storage => storage
    | None => storage_get_driver conf
    end in
  bind (match indexer with
        | Some indexer => ret indexer
        | None =>
            let indexer := indexer_get_driver conf in
            bind (indexer_connect indexer) (λ _, ret indexer)
        end) (λ indexer,
  let cfg_path := paste_config conf in
  let cfg_path :=
    if isabs cfg_path then Some cfg_path else find_file conf cfg_path in
  bind (match cfg_path with
        | None => ret true
        | Some path => bind (path_exists path) (λ e, ret (negb e))
        end) (λ missing,
  match cfg_path, missing with
  | Some cfg_path, false =>
      let config := mkConfig conf indexer storage not_implemented_middleware in
      bind str_uuid4 (λ configkey,
      bind (appconfigs_set configkey config) (λ _,
      bind (log_info ("WSGI config used: " +:+ cfg_path)) (λ _,
      ret (cfg_path, configkey))))
  | _, _ => raise (ConfigFilesNotFoundError [paste_config conf])
  end)).

Definition load_app (conf : Conf) (appname : option string)
    (indexer : option Indexer) (storage : option Storage)
    (not_implemented_middleware : bool) : M WSGIApp :=
  bind (load_app_register conf indexer storage not_implemented_middleware)
    (λ registered,
       deploy_loadapp ("config:" +:+ registered.1) appname
         {[ "configkey" := registered.2 ]}).

Definition _setup_app (root : option Root) (conf : Conf) (indexer : Indexer)
    (storage : Storage) (not_implemented_middleware : bool) : WSGIApp :=
  let app := pecan_make_app root (pecan_debug conf)
               [mkGnocchiHook storage indexer conf] in
  if not_implemented_middleware
  then HTTPExceptionMiddleware (NotImplementedMiddleware app)
  else app.

(** [**appconfig] raises [TypeError] when the lookup gave [None]. *)
Definition app_factory (global_config : gmap string string)
    (local_conf : gmap string Root) : M WSGIApp :=
  bind (appconfigs_get (global_config !! "configkey")) (λ appconfig,
  match appconfig with
  | None => raise TypeError
  | Some config =>
      ret (_setup_app (local_conf !! "root") (config_conf config)
             (config_indexer config) (config_storage config)
             (config_not_implemented_middleware config))
  end).

(** The path [load_app] looks for. *)
Definition resolved_path (conf : Conf) : option string :=
  if isabs (paste_config conf) then Some (paste_config conf)
  else find_file conf (paste_config conf).

(** The world after the drivers are chosen: a default indexer is connected,
    a supplied one is not. *)
Definition with_indexer (conf : Conf) (indexer : option Indexer) (w : World)
    : World :=
  mkWorld (APPCONFIGS w) (files w) (drawn w)
    (connected w ++ match indexer with
                    | Some _ => []
                    | None => [indexer_get_driver conf]
                    end)
    (LOG w).
End bootstrap.

Arguments GnocchiHook : clear implicits.
Arguments WSGIApp : clear implicits.
Arguments Config : clear implicits.
Arguments World : clear implicits.
Arguments M : clear implicits.
Arguments Services : clear implicits.
End App.

(** A bootstrap for the examples: configurations, drivers and roots are
    named by strings, relative paste configurations are looked up in
    /etc/gnocchi, identifiers are numbered and paste builds the bare pecan
    application. *)
Module AppExample.
Global Instance services : App.Services string string string string :=
  App.mkServices
    (λ conf, conf)
    (λ conf, false)
    (λ conf file, Some ("/etc/gnocchi/" +:+ file))
    (λ conf, "storage-of-" +:+ conf)
    (λ conf, "indexer-of-" +:+ conf)
    (λ path, String.prefix "/" path)
    (λ n, "uuid-" +:+ pretty n)
    (λ uri name global_conf w,
       (App.Return (App.pecan_make_app None false []), w)).

Definition installed : App.World string string string :=
  App.mkWorld ∅ {[ "/etc/gnocchi/api-paste.ini" ]} 0 [] [].

Definition bare : App.World string string string :=
  App.mkWorld ∅ ∅ 0 [] [].
End AppExample.

(** ** Facts about [groupby] *)

Section groupby_facts.
Context {A K : Type} `{EqDecision K} (key : A → K).

Lemma groupby_from_unfold (k : K) (acc l : list A) :
  groupby_from key k acc l =
    match groupby key l with
    | [] => [(k, reverse acc)]
    | (k', g) :: gs =>
        if decide (k' = k) then (k, reverse acc ++ g) :: gs
        else (k, reverse acc) :: (k', g) :: gs
    end.
Proof.
  revert k acc. induction l as [|x l IH]; intros k acc; [done|].
  cbn [groupby groupby_from].
  rewrite (IH (key x) [x]). destruct (decide (key x = k)) as [->|Hne].
  - rewrite IH, reverse_cons.
    destruct (groupby key l) as [|[k' g] gs]; cbn.
    + by rewrite decide_True.
    + destruct (decide (k' = k)); rewrite decide_True by done;
        by rewrite <-?app_assoc.
  - destruct (groupby key l) as [|[k' g] gs]; cbn.
    + by rewrite decide_False.
    + destruct (decide (k' = key x)); by rewrite decide_False.
Qed.

(** The equation the proofs below follow: a new element joins the first
    group of the rest when the keys agree and opens a group otherwise. *)
Lemma groupby_cons (x : A) (l : list A) :
  groupby key (x :: l) =
    match groupby key l with
    | [] => [(key x, [x])]
    | (k', g) :: gs =>
        if decide (k' = key x) then (key x, x :: g) :: gs
        else (key x, [x]) :: (k', g) :: gs
    end.
Proof. unfold groupby at 1. by rewrite groupby_from_unfold. Qed.

Lemma groupby_nil_inv (l : list A) : groupby key l = [] → l = [].
Proof.
  destruct l as [|x l]; [done|]. rewrite groupby_cons.
  destruct (groupby key l) as [|[k' g] gs]; [done|]. by case_decide.
Qed.

Lemma groupby_head_key (x : A) (l : list A) :
  head ((groupby key (x :: l)).*1) = Some (key x).
Proof.
  rewrite groupby_cons.
  destruct (groupby key l) as [|[k' g] gs]; [done|]. by case_decide.
Qed.

Lemma concat_groupby (l : list A) : concat ((groupby key l).*2) = l.
Proof.
  induction l as [|x l IH]; [done|]. rewrite groupby_cons.
  destruct (groupby key l) as [|[k' g] gs]; cbn in *; [by subst|].
  case_decide; cbn; by rewrite <-IH.
Qed.

(** No group is empty and every element of a group has the group's key. *)
Lemma groupby_groups (l : list A) :
  Forall (λ g, g.2 ≠ [] ∧ Forall (λ x, key x = g.1) g.2) (groupby key l).
Proof.
  induction l as [|x l IH]; [constructor|]. rewrite groupby_cons.
  destruct (groupby key l) as [|[k' g] gs].
  - repeat constructor; done.
  - apply Forall_cons in IH as [[Hne Hg] Hgs]. cbn in Hg, Hne.
    case_decide; subst; repeat constructor; cbn; auto.
Qed.

(** Groups are maximal runs: two consecutive groups have different keys. *)
Lemma groupby_consecutive (l : list A) (i : nat) (g g' : K * list A) :
  groupby key l !! i = Some g → groupby key l !! S i = Some g' →
  g.1 ≠ g'.1.
Proof.
  revert i g g'. induction l as [|x l IH]; intros i g g'; [done|].
  rewrite groupby_cons.
  destruct (groupby key l) as [|[k' g0] gs] eqn:E; [done|].
  case_decide as Hk; subst.
  - destruct i as [|i]; cbn.
    + intros [= <-] Hg'. cbn. exact (IH 0 (key x, g0) g' eq_refl Hg').
    + intros Hg Hg'. exact (IH (S i) g g' Hg Hg').
  - destruct i as [|i]; cbn.
    + intros [= <-] [= <-]. cbn. congruence.
    + intros Hg Hg'. exact (IH i g g' Hg Hg').
Qed.
End groupby_facts.

(** ** [groupby] against the grouping of the specification *)

Section spec_group_facts.
Context {A K : Type} `{EqDecision K} (key : A → K).

Lemma filter_all {B : Type} (P : B → Prop) `{!∀ x, Decision (P x)}
    (l : list B) :
  Forall P l → filter P l = l.
Proof.
  induction 1 as [|x l Hx _ IH]; [done|].
  by rewrite filter_cons_True, IH.
Qed.

Lemma filter_none {B : Type} (P : B → Prop) `{!∀ x, Decision (P x)}
    (l : list B) :
  Forall (λ x, ¬ P x) l → filter P l = [].
Proof.
  induction 1 as [|x l Hx _ IH]; [done|].
  by rewrite filter_cons_False.
Qed.

Lemma elem_of_first_seen (k : K) (ks : list K) :
  k ∈ first_seen ks ↔ k ∈ ks.
Proof.
  induction ks as [|k0 ks IH]; [done|]. cbn.
  rewrite !elem_of_cons, list_elem_of_filter, IH.
  destruct (decide (k = k0)); tauto.
Qed.

Lemma NoDup_first_seen (ks : list K) : NoDup (first_seen ks).
Proof.
  induction ks as [|k0 ks IH]; cbn; constructor.
  - rewrite list_elem_of_filter. by intros [Hk _].
  - by apply NoDup_filter.
Qed.

Lemma spec_group_keys (l : list A) :
  (spec_group key l).*1 = first_seen (key <$> l).
Proof.
  unfold spec_group.
  induction (first_seen (key <$> l)) as [|k ks IH]; [done|].
  cbn. by rewrite IH.
Qed.

Lemma spec_group_cons (x : A) (l : list A) :
  spec_group key (x :: l) =
    (key x, x :: filter (λ y, key y = key x) l)
      :: filter (λ g, g.1 ≠ key x) (spec_group key l).
Proof.
  unfold spec_group. rewrite fmap_cons. cbn [first_seen].
  rewrite fmap_cons, filter_cons_True by done. f_equal.
  induction (first_seen (key <$> l)) as [|k ks IH]; [done|].
  rewrite fmap_cons. destruct (decide (k = key x)) as [->|Hk].
  - rewrite (filter_cons_False (λ k', k' ≠ key x)) by (by intros Hk).
    rewrite (filter_cons_False (λ g : K * list A, g.1 ≠ key x))
      by (by intros Hk).
    exact IH.
  - rewrite (filter_cons_True (λ k', k' ≠ key x)) by done.
    rewrite (filter_cons_True (λ g : K * list A, g.1 ≠ key x)) by done.
    rewrite fmap_cons, IH. do 2 f_equal.
    by rewrite filter_cons_False by congruence.
Qed.

(** When equal keys are adjacent, [groupby] is the grouping by key in
    first-seen order. *)
Lemma groupby_spec_group (l : list A) :
  adjacent_keys key l = true → groupby key l = spec_group key l.
Proof.
  induction l as [|x l IH]; [done|]. cbn [adjacent_keys].
  intros [Hx Hl]%andb_prop. specialize (IH Hl).
  rewrite groupby_cons, spec_group_cons, IH.
  destruct l as [|y l]; [done|]. rewrite spec_group_cons.
  apply orb_prop in Hx as [Hx%bool_decide_eq_true|Hx%bool_decide_eq_true].
  - cbn in Hx. injection Hx as Hyx. rewrite decide_True by done.
    rewrite filter_cons_True by done.
    rewrite filter_cons_False by (by intros Hk).
    rewrite Hyx, list_filter_filter_l by done. done.
  - assert (key y ≠ key x) as Hyx.
    { intros E. apply Hx. rewrite fmap_cons, E. left. }
    rewrite decide_False by done.
    rewrite (filter_none (λ y, key y = key x)).
    2:{ apply Forall_forall. intros z Hz E. apply Hx. rewrite <-E.
        by apply list_elem_of_fmap_2. }
    f_equal. rewrite <-spec_group_cons. symmetry. apply filter_all.
    apply Forall_forall. intros g Hg E. apply Hx.
    rewrite <-E, <-elem_of_first_seen, <-spec_group_keys.
    by apply list_elem_of_fmap_2.
Qed.

(** What [adjacent_keys] decides: between two elements with one key, every
    element has that key. *)
Lemma adjacent_keys_between (l : list A) :
  adjacent_keys key l = true ↔
  ∀ i j k x y z, (i < j < k)%nat →
    l !! i = Some x → l !! j = Some y → l !! k = Some z →
    key x = key z → key y = key x.
Proof.
  induction l as [|x0 l IH].
  { split; [|done]. intros _ i j k x y z _ Hi. by rewrite lookup_nil in Hi. }
  cbn [adjacent_keys].
  rewrite andb_true_iff, orb_true_iff, !bool_decide_eq_true, IH. split.
  - intros [Hhead Hrest] i j k x y z Hijk Hi Hj Hk Hxz.
    destruct j as [|j]; [lia|]. destruct k as [|k]; [lia|].
    destruct i as [|i]; cbn in Hi, Hj, Hk.
    + injection Hi as ->.
      assert (key x ∈ key <$> l) as Hin.
      { rewrite Hxz. apply list_elem_of_fmap_2.
        by eapply list_elem_of_lookup_2. }
      destruct Hhead as [Hhead|Hno]; [|done].
      destruct l as [|y0 l']; [done|]. cbn in Hhead. injection Hhead as Hy0.
      destruct j as [|j]; cbn in Hj.
      * by injection Hj as <-.
      * destruct k as [|k]; [lia|]. rewrite <-Hy0.
        apply (Hrest 0%nat (S j) (S k) y0 y z); [lia|done..|congruence].
    + apply (Hrest i j k x y z); [lia|done..].
  - intros H. split.
    + destruct (decide (key x0 ∈ key <$> l)) as [Hin|Hnin]; [left|by right].
      apply list_elem_of_fmap in Hin as (z & Hz & Hin).
      apply list_elem_of_lookup_1 in Hin as [k Hk].
      destruct l as [|y0 l']; [done|]. cbn. f_equal.
      destruct k as [|k]; cbn in Hk.
      * by injection Hk as ->.
      * apply (H 0%nat 1%nat (S (S k)) x0 y0 z); [lia|done..].
    + intros i j k x y z Hijk Hi Hj Hk.
      apply (H (S i) (S j) (S k)); [lia|done..].
Qed.
End spec_group_facts.

(** ** Running the four REST operations *)

Lemma is_2xx_range (status : Z) : is_2xx status ↔ (200 ≤ status < 300)%Z.
Proof.
  unfold is_2xx.
  pose proof (Z.div_mod status 100 ltac:(lia)).
  pose proof (Z.mod_pos_bound status 100 ltac:(lia)). lia.
Qed.

(** [int(status / 100)] truncates under Python 3 and floors under Python 2;
    the test against 2 does not tell them apart. *)
Lemma is_2xx_truncated (status : Z) : is_2xx status ↔ (status ÷ 100 = 2)%Z.
Proof.
  destruct (Z.lt_ge_cases status 0) as [Hneg|Hpos].
  - rewrite is_2xx_range. split; [lia|]. intros H.
    assert (status ÷ 100 ≤ 0)%Z; [|lia].
    replace status with (- - status)%Z by lia.
    rewrite Z.quot_opp_l by lia.
    pose proof (Z.quot_pos (- status) 100 ltac:(lia) ltac:(lia)). lia.
  - unfold is_2xx. by rewrite Z.quot_div_nonneg by lia.
Qed.

Lemma not_2xx_false (status : Z) : is_2xx status → not_2xx status = false.
Proof. unfold is_2xx, not_2xx. intros ->. done. Qed.

Lemma not_2xx_true (status : Z) : ¬ is_2xx status → not_2xx status = true.
Proof. unfold is_2xx, not_2xx. intros H. by apply negb_true_iff, Z.eqb_neq. Qed.

Lemma is_2xx_eqb (status code : Z) :
  is_2xx status → ¬ is_2xx code → (status =? code)%Z = false.
Proof. intros H Hc. apply Z.eqb_neq. by intros ->. Qed.

Lemma not_2xx_404 : ¬ is_2xx 404.
Proof. by rewrite is_2xx_range; lia. Qed.

Lemma not_2xx_409 : ¬ is_2xx 409.
Proof. by rewrite is_2xx_range; lia. Qed.

(** ** The workflow of one work unit *)

(** Unfold the workflow down to the store's answers. *)
Ltac unfold_workflow :=
  unfold _process_samples, log_and_ignore_unexpected_workflow_error,
    process_samples_body, _get_resource_attributes, _post_measure,
    _create_resource, _create_entity, _update_resource, try_except,
    try_except_else, requests, log, raise;
  cbv [mbind M_bind mret M_ret].

(** Use the answer [H] of the store for the request at hand. *)
Ltac answer H := cbn [remote calls LOG]; rewrite H; cbv beta iota zeta.

(** Decide the tests on a status known to be the literal [code], or known
    to be 2xx. *)
Ltac status_is H :=
  rewrite ?H; cbn [Z.eqb Pos.eqb not_2xx negb Z.div Z.div_eucl Z.pos_div_eucl
                   Z.leb Z.ltb Z.compare Pos.compare Pos.compare_cont
                   Z.add Z.mul Z.sub Pos.add Pos.mul Z.pos_sub Z.opp
                   Pos.succ Z.succ_double Z.pred_double Z.double
                   Pos.pred_double];
  cbv beta iota zeta.

Ltac status_2xx H :=
  rewrite ?(is_2xx_eqb _ 404 H not_2xx_404), ?(is_2xx_eqb _ 409 H not_2xx_409),
    ?(not_2xx_false _ H);
  cbv beta iota zeta.

Section workflow_facts.
Context {Store : Type} `{!Platform Store} (self : GnocchiDispatcher).

(** The post answers 2xx at once: the flag decides on the update. *)
Lemma unit_steady (w : World Store) (ext : Extension)
    (resource_id entity_name : string) (samples : list Sample)
    (sample : Sample) (flag : bool) (r1 : Response) (s1 : Store) :
  let result := _process_samples self ext resource_id entity_name samples
                  flag w in
  last samples = Some sample →
  requests_request (unit_post self ext resource_id entity_name samples)
    (remote w) = (r1, s1) →
  is_2xx (status_code r1) →
  calls result.2
  = calls w ++ [unit_post self ext resource_id entity_name samples]
      ++ (if flag then [unit_update self ext resource_id sample] else [])
  ∧ result.1 = Return ().
Proof.
  intros result Hlast H1 Hs1. subst result.
  unfold unit_post, unit_update in *.
  unfold_workflow. answer H1. status_2xx Hs1. destruct flag; [|done].
  rewrite ?Hlast. cbn [remote calls LOG].
  destruct (requests_request _ s1) as [r2 s2].
  destruct (not_2xx (status_code r2)); by rewrite <-!app_assoc.
Qed.

(** 404, then the resource is created: the flag is cleared. *)
Lemma unit_created_resource (w : World Store) (ext : Extension)
    (resource_id entity_name : string) (samples : list Sample)
    (sample : Sample) (flag : bool) (r1 r2 : Response) (s1 s2 : Store) :
  let post := unit_post self ext resource_id entity_name samples in
  let create := unit_create self ext resource_id sample in
  last samples = Some sample →
  requests_request post (remote w) = (r1, s1) → status_code r1 = 404%Z →
  requests_request create s1 = (r2, s2) → is_2xx (status_code r2) →
  calls (_process_samples self ext resource_id entity_name samples flag w).2
  = calls w ++ [post; create; post].
Proof.
  intros post create Hlast H1 Hs1 H2 Hs2. subst post create.
  unfold unit_post, unit_create in *. unfold_workflow.
  answer H1. status_is Hs1. rewrite Hlast. answer H2. status_2xx Hs2.
  cbn [remote calls LOG].
  destruct (requests_request _ s2) as [r3 s3].
  destruct (status_code r3 =? 404)%Z; [by rewrite <-!app_assoc|].
  destruct (not_2xx (status_code r3)); by rewrite <-!app_assoc.
Qed.

(** 404, then the resource exists, then the entity is created or exists:
    the post is retried and the flag is as it was. *)
Lemma unit_recovered_entity (w : World Store) (ext : Extension)
    (resource_id entity_name : string) (samples : list Sample)
    (sample : Sample) (flag : bool) (r1 r2 r3 r4 : Response)
    (s1 s2 s3 s4 : Store) :
  let post := unit_post self ext resource_id entity_name samples in
  let create := unit_create self ext resource_id sample in
  let create_entity := unit_create_entity self ext resource_id entity_name in
  let update := unit_update self ext resource_id sample in
  let result := _process_samples self ext resource_id entity_name samples
                  flag w in
  last samples = Some sample →
  requests_request post (remote w) = (r1, s1) → status_code r1 = 404%Z →
  requests_request create s1 = (r2, s2) → status_code r2 = 409%Z →
  requests_request create_entity s2 = (r3, s3) →
  is_2xx (status_code r3) ∨ status_code r3 = 409%Z →
  requests_request post s3 = (r4, s4) →
  calls result.2
  = calls w ++ [post; create; create_entity; post]
      ++ (if not_2xx (status_code r4) then []
          else if flag then [update] else [])
  ∧ result.1
    = (if (status_code r4 =? 404)%Z then Raise NoSuchEntity else Return ()).
Proof.
  intros post create create_entity update result Hlast H1 Hs1 H2 Hs2 H3 Hs3
    H4.
  subst post create create_entity update result.
  unfold unit_post, unit_create, unit_create_entity, unit_update in *.
  unfold_workflow.
  answer H1. status_is Hs1. rewrite Hlast. answer H2. status_is Hs2.
  answer H3.
  assert (∀ (X : Type) (a b c : X),
    (if (status_code r3 =? 409)%Z then a
     else if not_2xx (status_code r3) then b else c)
    = (if (status_code r3 =? 409)%Z then a else c)) as Hsel.
  { intros X a b c. destruct Hs3 as [Hs3|Hs3].
    - by rewrite (not_2xx_false _ Hs3).
    - by rewrite Hs3. }
  rewrite Hsel.
  destruct (status_code r3 =? 409)%Z; cbv beta iota zeta;
    answer H4.
  all: destruct (status_code r4 =? 404)%Z eqn:E404;
    [apply Z.eqb_eq in E404; rewrite E404; cbn; by rewrite <-!app_assoc|].
  all: destruct (not_2xx (status_code r4)); [by rewrite <-!app_assoc|].
  all: destruct flag; [|by rewrite <-!app_assoc].
  all: rewrite ?Hlast; cbn [remote calls LOG].
  all: destruct (requests_request _ s4) as [r5 s5].
  all: destruct (not_2xx (status_code r5)); by rewrite <-!app_assoc.
Qed.

(** C6 (cold start, resource missing): the initial post answers 404 and
    the creation of the resource answers 2xx.  Whatever the retry answers
    and whatever the flag was, the unit issues the post, the creation of
    the resource with the create-variant attributes and the same post
    again, and nothing else: no creation of the entity and no update. *)
Theorem process_samples_resource_missing (w : World Store) (ext : Extension)
    (resource_id entity_name : string) (samples : list Sample)
    (sample : Sample) (resource_need_to_be_updated : bool)
    (r1 r2 : Response) (s1 s2 : Store) :
  let post := post_measure_request self (name ext) resource_id entity_name
                (measure_attributes_of samples) in
  let create := create_resource_request self (name ext)
                  (create_attributes self ext resource_id sample
                     (get_resource_extra_attributes (obj ext) sample)) in
  last samples = Some sample →
  requests_request post (remote w) = (r1, s1) → status_code r1 = 404%Z →
  requests_request create s1 = (r2, s2) → is_2xx (status_code r2) →
  calls (_process_samples self ext resource_id entity_name samples
           resource_need_to_be_updated w).2
  = calls w ++ [post; create; post].
Proof. apply unit_created_resource. Qed.

(** C5 (race on the creation of the entity): the initial post answers 404,
    the creation of the resource 409 and the creation of the entity 409.
    The conflict is not an error: the unit goes on to post the measures
    again, raises nothing on account of the conflict, and then updates the
    resource when the retry answers 2xx. *)
Theorem process_samples_entity_race (w : World Store) (ext : Extension)
    (resource_id entity_name : string) (samples : list Sample)
    (sample : Sample) (r1 r2 r3 r4 : Response) (s1 s2 s3 s4 : Store) :
  let post := post_measure_request self (name ext) resource_id entity_name
                (measure_attributes_of samples) in
  let create := create_resource_request self (name ext)
                  (create_attributes self ext resource_id sample
                     (get_resource_extra_attributes (obj ext) sample)) in
  let create_entity := create_entity_request self (name ext) resource_id
                         entity_name in
  let update := update_resource_request self (name ext) resource_id
                  (get_resource_extra_attributes (obj ext) sample) in
  let result := _process_samples self ext resource_id entity_name samples
                  true w in
  last samples = Some sample →
  requests_request post (remote w) = (r1, s1) → status_code r1 = 404%Z →
  requests_request create s1 = (r2, s2) → status_code r2 = 409%Z →
  requests_request create_entity s2 = (r3, s3) → status_code r3 = 409%Z →
  requests_request post s3 = (r4, s4) →
  calls result.2
  = calls w ++ [post; create; create_entity; post]
      ++ (if not_2xx (status_code r4) then [] else [update])
  ∧ result.1
    = (if (status_code r4 =? 404)%Z then Raise NoSuchEntity else Return ()).
Proof.
  intros post create create_entity update result Hlast H1 Hs1 H2 Hs2 H3 Hs3
    H4.
  exact (unit_recovered_entity w ext resource_id entity_name samples sample
           true r1 r2 r3 r4 s1 s2 s3 s4 Hlast H1 Hs1 H2 Hs2 H3
           (or_intror Hs3) H4).
Qed.

(** C4, amended (cold start, entity missing only): the initial post
    answers 404, the creation of the resource 409, the creation of the
    entity 2xx and the retried post 2xx.  The unit issues the post, the
    creation of the resource, the creation of the entity, the same post
    again and then the update of the resource, in this order. *)
Theorem process_samples_entity_missing (w : World Store) (ext : Extension)
    (resource_id entity_name : string) (samples : list Sample)
    (sample : Sample) (r1 r2 r3 r4 : Response) (s1 s2 s3 s4 : Store) :
  let post := post_measure_request self (name ext) resource_id entity_name
                (measure_attributes_of samples) in
  let create := create_resource_request self (name ext)
                  (create_attributes self ext resource_id sample
                     (get_resource_extra_attributes (obj ext) sample)) in
  let create_entity := create_entity_request self (name ext) resource_id
                         entity_name in
  let update := update_resource_request self (name ext) resource_id
                  (get_resource_extra_attributes (obj ext) sample) in
  let result := _process_samples self ext resource_id entity_name samples
                  true w in
  last samples = Some sample →
  requests_request post (remote w) = (r1, s1) → status_code r1 = 404%Z →
  requests_request create s1 = (r2, s2) → status_code r2 = 409%Z →
  requests_request create_entity s2 = (r3, s3) → is_2xx (status_code r3) →
  requests_request post s3 = (r4, s4) → is_2xx (status_code r4) →
  calls result.2 = calls w ++ [post; create; create_entity; post; update]
  ∧ result.1 = Return ().
Proof.
  intros post create create_entity update result Hlast H1 Hs1 H2 Hs2 H3 Hs3
    H4 Hs4.
  destruct (unit_recovered_entity w ext resource_id entity_name samples
              sample true r1 r2 r3 r4 s1 s2 s3 s4 Hlast H1 Hs1 H2 Hs2 H3
              (or_introl Hs3) H4) as [Hcalls Hout].
  rewrite (not_2xx_false _ Hs4) in Hcalls.
  rewrite (is_2xx_eqb _ 404 Hs4 not_2xx_404) in Hout.
  split; [exact Hcalls|exact Hout].
Qed.
End workflow_facts.

(** ** The loops of [record_metering_data] *)

Section loop_facts.
Context {Store : Type} `{!Platform Store} (self : GnocchiDispatcher).

Lemma for_each_app {A : Type} (l1 l2 : list A) (body : A → M Store ())
    (w : World Store) :
  for_each (l1 ++ l2) body w =
    match for_each l1 body w with
    | (Return _, w') => for_each l2 body w'
    | (Raise e, w') => (Raise e, w')
    end.
Proof.
  revert w. induction l1 as [|x l1 IH]; intros w; [done|].
  cbn [app for_each]. cbv [mbind M_bind].
  destruct (body x w) as [[[]|e] w']; [apply IH|done].
Qed.

(** Replacing an element of the list by one whose body runs the same. *)
Lemma for_each_replace {A : Type} (l1 l2 : list A) (x y : A)
    (body : A → M Store ()) :
  (∀ w, body x w = body y w) →
  ∀ w, for_each (l1 ++ x :: l2) body w = for_each (l1 ++ y :: l2) body w.
Proof.
  intros Hxy w. rewrite !for_each_app.
  destruct (for_each l1 body w) as [[[]|e] w']; [|done].
  cbn [for_each]. cbv [mbind M_bind]. by rewrite Hxy.
Qed.

(** Dropping an element whose body does nothing. *)
Lemma for_each_skip {A : Type} (l1 l2 : list A) (x : A)
    (body : A → M Store ()) :
  (∀ w, body x w = (Return (), w)) →
  ∀ w, for_each (l1 ++ x :: l2) body w = for_each (l1 ++ l2) body w.
Proof.
  intros Hx w. rewrite !for_each_app.
  destruct (for_each l1 body w) as [[[]|e] w']; [|done].
  cbn [for_each]. cbv [mbind M_bind]. by rewrite Hx.
Qed.

(** Only the owners of the metric take part in the loop over extensions. *)
Lemma for_ext_owners (exts : list Extension) (resource_id entity_name : string)
    (samples : list Sample) (flag : bool) (w : World Store) :
  for_ext self exts resource_id entity_name samples flag w
  = for_ext self (owners entity_name exts) resource_id entity_name samples
      flag w.
Proof.
  revert samples w. induction exts as [|ext exts IH]; intros samples w; [done|].
  unfold owners. cbn [for_ext]. case_bool_decide as Hown.
  - rewrite filter_cons_True by done. cbn [for_ext].
    rewrite bool_decide_eq_true_2 by done. cbv [mbind M_bind].
    destruct (_process_samples _ _ _ _ _ _ _) as [[[]|e] w']; [apply IH|done].
  - rewrite filter_cons_False by done. apply IH.
Qed.

Lemma for_ext_no_owner (resource_id entity_name : string)
    (samples : list Sample) (flag : bool) (w : World Store) :
  Forall (λ ext, entity_name ∉ get_entities_names (obj ext)) (mgmr self) →
  for_ext self (mgmr self) resource_id entity_name samples flag w
  = (Return (), w).
Proof.
  intros Hno. rewrite for_ext_owners. unfold owners.
  by rewrite filter_none.
Qed.

(** A run of samples with one key is one group. *)
Lemma groupby_uniform {A K : Type} `{EqDecision K} (key : A → K) (k : K)
    (l : list A) :
  l ≠ [] → Forall (λ x, key x = k) l → groupby key l = [(k, l)].
Proof.
  induction l as [|x l IH]; [done|]. intros _ [Hx Hl]%Forall_cons.
  rewrite groupby_cons. destruct l as [|y l]; [by rewrite <-Hx|].
  rewrite IH by done. by rewrite decide_True, Hx.
Qed.
End loop_facts.

(** ** The grouping of a batch *)

Section grouping_facts.

Lemma visited_grouped_samples (data : list Sample) :
  visited_samples (grouped_samples data) = data.
Proof.
  unfold visited_samples, grouped_samples, entity_grouped_samples,
    resource_grouped_samples.
  rewrite <-list_fmap_compose.
  rewrite (list_fmap_ext _ snd).
  - apply concat_groupby.
  - intros i g _. cbn. apply concat_groupby.
Qed.

Lemma elem_of_spec_group {A K : Type} `{EqDecision K} (key : A → K)
    (l : list A) (g : K * list A) :
  g ∈ spec_group key l → g.2 = filter (λ x, key x = g.1) l.
Proof.
  unfold spec_group. intros (k & -> & _)%list_elem_of_fmap. done.
Qed.

(** C7: the samples of the groups, taken in the order of the resource
    groups and then of their metric groups, are the batch itself.  So for
    each (resource_id, metric_name) pair they come in their original
    order, none is dropped and none is duplicated; and every group holds
    samples of its own pair only. *)
Theorem grouping_keeps_samples (data : list Sample) :
  visited_samples (grouped_samples data) = data
  ∧ (∀ rid metric,
       filter (λ s, resource_id s = rid ∧ counter_name s = metric)
         (visited_samples (grouped_samples data))
       = filter (λ s, resource_id s = rid ∧ counter_name s = metric) data)
  ∧ visited_samples (grouped_samples data) ≡ₚ data
  ∧ Forall (λ rg, Forall (λ eg,
       eg.2 ≠ [] ∧
       Forall (λ s, resource_id s = rg.1 ∧ counter_name s = eg.1) eg.2)
       rg.2) (grouped_samples data).
Proof.
  rewrite visited_grouped_samples. repeat split; [done|].
  unfold grouped_samples, resource_grouped_samples, entity_grouped_samples.
  apply Forall_fmap, Forall_forall. intros [rid ss] Hg. cbn.
  pose proof (groupby_groups resource_id data) as Hr.
  rewrite Forall_forall in Hr. destruct (Hr _ Hg) as [_ Hrid]. cbn in Hrid.
  pose proof (groupby_groups counter_name ss) as He.
  pose proof (concat_groupby counter_name ss) as Hc.
  apply Forall_forall. intros [metric ms] Hm.
  rewrite Forall_forall in He. destruct (He _ Hm) as [Hne Hmetric].
  cbn in *. split; [done|]. apply Forall_forall. intros s Hs. split.
  - rewrite Forall_forall in Hrid. apply Hrid. rewrite <-Hc.
    apply list_elem_of_In, in_concat. exists ms. split.
    + apply list_elem_of_In.
      by apply (list_elem_of_fmap_2 snd _ (metric, ms)).
    + by apply list_elem_of_In.
  - rewrite Forall_forall in Hmetric. by apply Hmetric.
Qed.

(** No resource group and no metric group is empty, and a group holds
    samples of its own resource_id and metric_name only. *)
Lemma grouped_samples_own_keys (data : list Sample) :
  Forall (λ rg,
    rg.2 ≠ [] ∧
    Forall (λ eg,
      eg.2 ≠ [] ∧
      Forall (λ s, resource_id s = rg.1 ∧ counter_name s = eg.1) eg.2)
      rg.2) (grouped_samples data).
Proof.
  unfold grouped_samples, resource_grouped_samples, entity_grouped_samples.
  apply Forall_fmap, Forall_forall. intros [rid ss] Hg. cbn.
  pose proof (groupby_groups resource_id data) as Hr.
  rewrite Forall_forall in Hr. destruct (Hr _ Hg) as [Hss Hrid].
  cbn in Hss, Hrid. split.
  { intros Hnil. by apply groupby_nil_inv in Hnil. }
  pose proof (groupby_groups counter_name ss) as He.
  pose proof (concat_groupby counter_name ss) as Hc.
  apply Forall_forall. intros [metric ms] Hm.
  rewrite Forall_forall in He. destruct (He _ Hm) as [Hne Hmetric].
  cbn in *. split; [done|]. apply Forall_forall. intros s Hs. split.
  - rewrite Forall_forall in Hrid. apply Hrid. rewrite <-Hc.
    apply list_elem_of_In, in_concat. exists ms. split.
    + apply list_elem_of_In.
      by apply (list_elem_of_fmap_2 snd _ (metric, ms)).
    + by apply list_elem_of_In.
  - rewrite Forall_forall in Hmetric. by apply Hmetric.
Qed.

(** C3, amended: the groups are the maximal runs of consecutive samples
    with one resource_id and, inside such a run, the maximal runs with one
    metric_name: put end to end the groups are the batch, in its order; no
    group is empty and each holds samples of its own resource_id and
    metric_name only; two consecutive resource groups have different
    resource_ids and two consecutive metric groups of a resource have
    different metric_names.  So samples with one key that are not adjacent
    are in separate groups with that key.  When the samples of each
    resource_id are adjacent in the batch and, among the samples of each
    resource, those of each metric_name are adjacent, the groups are keyed
    by resource_id in first-seen order and, within a resource, by
    metric_name in first-seen order, each group holding all the samples of
    its key. *)
Theorem grouping_of_adjacent_samples (data : list Sample) :
  visited_samples (grouped_samples data) = data
  ∧ Forall (λ rg,
      rg.2 ≠ [] ∧
      Forall (λ eg,
        eg.2 ≠ [] ∧
        Forall (λ s, resource_id s = rg.1 ∧ counter_name s = eg.1) eg.2)
        rg.2) (grouped_samples data)
  ∧ (∀ i rg rg', grouped_samples data !! i = Some rg →
       grouped_samples data !! S i = Some rg' → rg.1 ≠ rg'.1)
  ∧ (∀ rg i eg eg', rg ∈ grouped_samples data →
       rg.2 !! i = Some eg → rg.2 !! S i = Some eg' → eg.1 ≠ eg'.1)
  ∧ (adjacent_keys resource_id data = true →
     Forall (λ rid, adjacent_keys counter_name
                      (filter (λ s, resource_id s = rid) data) = true)
       (resource_id <$> data) →
     grouped_samples data = spec_grouped_samples data).
Proof.
  split; [apply visited_grouped_samples|].
  split; [apply grouped_samples_own_keys|].
  unfold grouped_samples, resource_grouped_samples, entity_grouped_samples.
  repeat split.
  - intros i rg rg'. rewrite !list_lookup_fmap.
    destruct (groupby resource_id data !! i) as [g|] eqn:Hg; [|done].
    destruct (groupby resource_id data !! S i) as [g'|] eqn:Hg'; [|done].
    intros [= <-] [= <-]. cbn. by eapply groupby_consecutive.
  - intros rg i eg eg' (g & -> & _)%list_elem_of_fmap. cbn.
    apply groupby_consecutive.
  - intros Hres Hmetric. unfold spec_grouped_samples.
    rewrite (groupby_spec_group resource_id data Hres).
    apply list_fmap_ext. intros i g Hg%list_elem_of_lookup_2.
    f_equal. rewrite (elem_of_spec_group _ _ _ Hg).
    apply groupby_spec_group. rewrite Forall_forall in Hmetric.
    apply Hmetric. rewrite <-elem_of_first_seen, <-spec_group_keys.
    by apply list_elem_of_fmap_2.
Qed.
End grouping_facts.

(** ** The attributes of a resource *)

Section attribute_facts.
Context {Store : Type} `{!Platform Store} (self : GnocchiDispatcher).

Lemma dict_lookup (names : list string) (v : json) (acc : gmap string json)
    (m : string) :
  foldl (λ d kv, <[kv.1 := kv.2]> d) acc ((λ n, (n, v)) <$> names) !! m
  = if decide (m ∈ names) then Some v else acc !! m.
Proof.
  revert acc. induction names as [|n names IH]; intros acc; cbn.
  - by rewrite decide_False by apply not_elem_of_nil.
  - rewrite IH. destruct (decide (m ∈ names)) as [Hin|Hnin].
    + by rewrite decide_True by (by right).
    + destruct (decide (m = n)) as [->|Hne].
      * rewrite decide_True by left. apply lookup_insert_eq.
      * rewrite decide_False by (by intros [?|?]%elem_of_cons).
        by apply lookup_insert_ne.
Qed.

(** The policy bindings: the configured archive policy for each metric
    name of the resource type, and nothing else. *)
Lemma entities_lookup (ext : Extension) (m : string) :
  dict ((λ entity_name, (entity_name, gnocchi_archive_policy self))
          <$> get_entities_names (obj ext)) !! m
  = if decide (m ∈ get_entities_names (obj ext))
    then Some (gnocchi_archive_policy self) else None.
Proof. unfold dict. by rewrite dict_lookup, lookup_empty. Qed.

(** C8: for a group that is not empty, the create variant holds the
    resource id, the user and the project of the last sample and, under
    "entities", the configured archive policy for exactly the metric
    names the resource type owns; every other key is as the plugin
    extracted it from the last sample.  The update variant is what the
    plugin extracted and nothing more: the workflow adds no identity
    field and no policy binding to it.  Building either touches neither
    the store nor the log. *)
Theorem resource_attributes_variants (w : World Store) (ext : Extension)
    (resource_id entity_name : string) (samples : list Sample)
    (sample : Sample) :
  let extracted := get_resource_extra_attributes (obj ext) sample in
  last samples = Some sample →
  (∃ attributes entities,
      _get_resource_attributes self ext resource_id entity_name samples
        false w = (Return attributes, w)
      ∧ attributes !! "id" = Some (JStr resource_id)
      ∧ attributes !! "user_id" = Some (user_id sample)
      ∧ attributes !! "project_id" = Some (project_id sample)
      ∧ attributes !! "entities" = Some (JObj entities)
      ∧ (∀ m, entities !! m
              = if decide (m ∈ get_entities_names (obj ext))
                then Some (gnocchi_archive_policy self) else None)
      ∧ (∀ k, k ∉ ["id"; "user_id"; "project_id"; "entities"] →
              attributes !! k = extracted !! k))
  ∧ _get_resource_attributes self ext resource_id entity_name samples
      true w = (Return extracted, w).
Proof.
  intros extracted Hlast. unfold _get_resource_attributes. rewrite Hlast.
  split; [|done]. eexists _, _. split; [done|].
  unfold create_attributes. repeat split.
  - by rewrite !lookup_insert_ne, lookup_insert_eq by done.
  - by rewrite !lookup_insert_ne, lookup_insert_eq by done.
  - by rewrite !lookup_insert_ne, lookup_insert_eq by done.
  - by rewrite lookup_insert_eq.
  - apply entities_lookup.
  - intros k Hk. rewrite !not_elem_of_cons in Hk.
    destruct Hk as (? & ? & ? & ? & _). by rewrite !lookup_insert_ne by done.
Qed.
End attribute_facts.

(** ** Dispatching a batch *)

Section dispatch_facts.
Context {Store : Type} `{!Platform Store} (self : GnocchiDispatcher).

Lemma lookup_issued {A : Type} (l issued : list A) (i : nat) :
  (l ++ issued) !! (length l + i) = issued !! i.
Proof. induction l as [|x l IH]; [done|]. exact IH. Qed.

(** C9: in a unit that reaches the retry (the initial post answers 404
    and then either the resource is created, or it exists and the entity
    is created or exists), the first request of the unit and the request
    of the retry are one and the same [Request]: same method, URL,
    headers and body, the body being the serialisation of the measures
    built once from the samples.  The retry is the third request when the
    resource was created and the fourth otherwise. *)
Theorem retry_post_is_initial_post (w : World Store) (ext : Extension)
    (resource_id entity_name : string) (samples : list Sample)
    (sample : Sample) (resource_need_to_be_updated : bool)
    (r1 r2 r3 : Response) (s1 s2 s3 : Store) :
  let post := post_measure_request self (name ext) resource_id entity_name
                (measure_attributes_of samples) in
  let create := create_resource_request self (name ext)
                  (create_attributes self ext resource_id sample
                     (get_resource_extra_attributes (obj ext) sample)) in
  let create_entity := create_entity_request self (name ext) resource_id
                         entity_name in
  let result := _process_samples self ext resource_id entity_name samples
                  resource_need_to_be_updated w in
  let retry_at := if (status_code r2 =? 409)%Z then 3 else 2 in
  last samples = Some sample →
  requests_request post (remote w) = (r1, s1) → status_code r1 = 404%Z →
  requests_request create s1 = (r2, s2) →
  requests_request create_entity s2 = (r3, s3) →
  is_2xx (status_code r2)
  ∨ (status_code r2 = 409%Z
     ∧ (is_2xx (status_code r3) ∨ status_code r3 = 409%Z)) →
  ∃ initial retry,
    calls result.2 !! length (calls w) = Some initial
    ∧ calls result.2 !! (length (calls w) + retry_at) = Some retry
    ∧ retry = initial
    ∧ data retry = json_dumps (measure_attributes_of samples)
    ∧ data initial = json_dumps (measure_attributes_of samples).
Proof.
  intros post create create_entity result retry_at Hlast H1 Hs1 H2 H3 Hpath.
  exists post, post. subst result retry_at.
  destruct Hpath as [Hs2|[Hs2 Hs3]].
  - rewrite (unit_created_resource self w ext resource_id entity_name
               samples sample _ r1 r2 s1 s2 Hlast H1 Hs1 H2 Hs2).
    rewrite (is_2xx_eqb _ 409 Hs2 not_2xx_409).
    rewrite <-(Nat.add_0_r (length (calls w))) at 1.
    by rewrite !lookup_issued.
  - destruct (requests_request post s3) as [r4 s4] eqn:H4.
    destruct (unit_recovered_entity self w ext resource_id entity_name
                samples sample resource_need_to_be_updated r1 r2 r3 r4
                s1 s2 s3 s4 Hlast H1 Hs1 H2 Hs2 H3 Hs3 H4) as [-> _].
    rewrite Hs2. cbn [Z.eqb Pos.eqb].
    rewrite <-(Nat.add_0_r (length (calls w))) at 1.
    by rewrite !lookup_issued.
Qed.

(** C1, amended (steady state): the batch is not empty, all its samples
    have one resource_id and one metric_name, exactly one registered
    extension owns the metric and the store answers 2xx to the post.
    Then [record_metering_data] issues the post and, after it, one update
    of the resource with the update-variant attributes of the last
    sample, whatever the store answers to the update; it creates neither
    a resource nor an entity and returns normally. *)
Theorem record_metering_data_steady (w : World Store) (data : list Sample)
    (sample : Sample) (rid metric : string) (ext : Extension)
    (r1 : Response) (s1 : Store) :
  let post := post_measure_request self (name ext) rid metric
                (measure_attributes_of data) in
  let update := update_resource_request self (name ext) rid
                  (get_resource_extra_attributes (obj ext) sample) in
  let result := record_metering_data self data w in
  last data = Some sample →
  Forall (λ s, resource_id s = rid ∧ counter_name s = metric) data →
  owners metric (mgmr self) = [ext] →
  requests_request post (remote w) = (r1, s1) → is_2xx (status_code r1) →
  calls result.2 = calls w ++ [post; update] ∧ result.1 = Return ().
Proof.
  intros post update result Hlast Hdata Hown H1 Hs1. subst result.
  assert (data ≠ []) as Hne by (by intros ->).
  unfold record_metering_data, grouped_samples, resource_grouped_samples,
    entity_grouped_samples.
  rewrite (groupby_uniform resource_id rid data Hne)
    by (eapply Forall_impl; [exact Hdata|by intros s [? ?]]).
  cbn [fmap list_fmap fst snd].
  rewrite (groupby_uniform counter_name metric data Hne)
    by (eapply Forall_impl; [exact Hdata|by intros s [? ?]]).
  unfold dispatch_groups. cbn [for_each fst snd]. cbv [mbind M_bind mret M_ret].
  rewrite for_ext_owners, Hown. cbn [for_ext].
  assert (metric ∈ get_entities_names (obj ext)) as Hin.
  { assert (ext ∈ owners metric (mgmr self)) as Hext by (rewrite Hown; left).
    by apply list_elem_of_filter in Hext as [? _]. }
  rewrite bool_decide_eq_true_2 by done. cbv [mbind M_bind mret M_ret].
  destruct (unit_steady self w ext rid metric data sample true r1 s1 Hlast
              H1 Hs1) as [Hcalls Hout].
  destruct (_process_samples self ext rid metric data true w) as [o w'].
  cbn in Hcalls, Hout. subst o. done.
Qed.

(** C10: a metric group whose name no registered extension owns is
    skipped: the loop over the extensions issues no request, logs nothing
    and raises nothing for it, and the batch is dispatched exactly as if
    the group were not among its groups. *)
Theorem record_metering_data_skips_unowned (w : World Store)
    (data : list Sample)
    (before after : list (string * list (string * list Sample)))
    (rid metric : string) (samples : list Sample)
    (earlier later : list (string * list Sample)) :
  grouped_samples data
    = before ++ (rid, earlier ++ (metric, samples) :: later) :: after →
  Forall (λ ext, metric ∉ get_entities_names (obj ext)) (mgmr self) →
  (∀ w', for_ext self (mgmr self) rid metric samples true w'
         = (Return (), w'))
  ∧ record_metering_data self data w
    = dispatch_groups self (before ++ (rid, earlier ++ later) :: after) w.
Proof.
  intros Hgroups Hno. split.
  - intros w'. by apply for_ext_no_owner.
  - unfold record_metering_data. rewrite Hgroups. unfold dispatch_groups.
    apply for_each_replace. intros w'. cbn [fst snd].
    apply for_each_skip. intros w''. cbn [fst snd].
    by apply for_ext_no_owner.
Qed.
End dispatch_facts.

(** ** Which exceptions leave a unit *)

Section escape_facts.
Context {Store : Type} `{!Platform Store} (self : GnocchiDispatcher).

(** The decorator swallows [UnexpectedWorkflowError], the handlers of the
    body swallow the two conflicts; what can still leave
    [_process_samples] is the [NoSuchEntity] of the retried post and the
    [IndexError] of [samples[-1]] on a drained group. *)
Lemma process_samples_outcome (w : World Store) (ext : Extension)
    (resource_id entity_name : string) (samples : list Sample)
    (flag : bool) :
  let outcome := (_process_samples self ext resource_id entity_name samples
                    flag w).1 in
  outcome = Return () ∨ outcome = Raise NoSuchEntity
  ∨ outcome = Raise IndexError.
Proof.
  unfold_workflow.
  repeat first
    [ progress cbn [remote calls LOG fst snd]
    | match goal with
      | |- context [requests_request ?r ?s] =>
          destruct (requests_request r s) as [? ?]
      | |- context [last ?l] => destruct (last l)
      | |- context [if ?b then _ else _] => destruct b
      end ];
    auto.
Qed.

Lemma for_each_outcome {A : Type} (l : list A) (body : A → M Store ())
    (P : Outcome () → Prop) :
  P (Return ()) → (∀ x w, P (body x w).1) →
  ∀ w, P (for_each l body w).1.
Proof.
  intros Hret Hbody. induction l as [|x l IH]; intros w; [done|].
  cbn [for_each]. cbv [mbind M_bind]. specialize (Hbody x w).
  destruct (body x w) as [[[]|e] w']; [apply IH|exact Hbody].
Qed.

Lemma for_ext_outcome (exts : list Extension) (resource_id entity_name : string)
    (samples : list Sample) (flag : bool) (w : World Store) :
  let outcome := (for_ext self exts resource_id entity_name samples flag w).1 in
  outcome = Return () ∨ outcome = Raise NoSuchEntity
  ∨ outcome = Raise IndexError.
Proof.
  revert samples w. induction exts as [|ext exts IH]; intros samples w.
  { by left. }
  cbn [for_ext]. case_bool_decide; [|apply IH]. cbv [mbind M_bind].
  pose proof (process_samples_outcome w ext resource_id entity_name samples
                flag) as Hunit.
  destruct (_process_samples _ _ _ _ _ _ _) as [[[]|e] w']; [apply IH|].
  exact Hunit.
Qed.

(** So [record_metering_data] never lets an [UnexpectedWorkflowError] or a
    conflict out; it returns or raises one of the two others. *)
Lemma record_metering_data_outcome (data : list Sample) (w : World Store) :
  let outcome := (record_metering_data self data w).1 in
  outcome = Return () ∨ outcome = Raise NoSuchEntity
  ∨ outcome = Raise IndexError.
Proof.
  unfold record_metering_data, dispatch_groups.
  apply (for_each_outcome _ _
           (λ o, o = Return () ∨ o = Raise NoSuchEntity
                 ∨ o = Raise IndexError)); [by left|].
  intros rg w'.
  apply (for_each_outcome _ _
           (λ o, o = Return () ∨ o = Raise NoSuchEntity
                 ∨ o = Raise IndexError)); [by left|].
  intros eg w''. apply for_ext_outcome.
Qed.
End escape_facts.

(** ** The dispatcher on concrete batches *)

(** C2, the failing input: two units, the store answers 404 to the first
    post, 201 to the creation of the resource and 404 again to the retry.
    The [NoSuchEntity] of the retry is not an [UnexpectedWorkflowError]: it
    leaves [_process_samples] and [record_metering_data], nothing is logged
    as an error and the unit of r2 is never started.  Had the retry
    answered 500, the error would have been logged and r2 dispatched. *)
Theorem retry_404_leaves_record_metering_data :
  let result := record_metering_data dispatcher [cpu_r1; cpu_r2]
                  (start [404; 201; 404]%Z) in
  let other := record_metering_data dispatcher [cpu_r1; cpu_r2]
                 (start [404; 201; 500]%Z) in
  result.1 = Raise NoSuchEntity
  ∧ calls result.2
    = [unit_post dispatcher instance "r1" "cpu" [cpu_r1];
       unit_create dispatcher instance "r1" cpu_r1;
       unit_post dispatcher instance "r1" "cpu" [cpu_r1]]
  ∧ Forall (λ record, record.1 = DEBUG) (LOG result.2)
  ∧ other.1 = Return ()
  ∧ calls other.2
    = [unit_post dispatcher instance "r1" "cpu" [cpu_r1];
       unit_create dispatcher instance "r1" cpu_r1;
       unit_post dispatcher instance "r1" "cpu" [cpu_r1];
       unit_post dispatcher instance "r2" "cpu" [cpu_r2];
       unit_update dispatcher instance "r2" cpu_r2].
Proof.
  cbv zeta. repeat split; try (vm_compute; reflexivity).
  vm_compute. repeat constructor.
Qed.

(** C1 as stated fails: one sample, its metric owned by one extension, the
    store answering 200 to everything.  After the post the dispatcher
    PATCHes the resource. *)
Lemma steady_state_issues_update :
  let w := start [200]%Z in
  let post := unit_post dispatcher instance "r1" "cpu" [cpu_r1] in
  let update := unit_update dispatcher instance "r1" cpu_r1 in
  let result := record_metering_data dispatcher [cpu_r1] w in
  is_2xx (status_code (requests_request post (remote w)).1)
  ∧ calls result.2 = [post; update]
  ∧ method update = PATCH
  ∧ calls result.2 ≠ [post].
Proof.
  cbv zeta. repeat split; try (vm_compute; reflexivity).
  intros H%(f_equal length). vm_compute in H. discriminate.
Qed.

(** C3 as stated fails: samples of one resource that are not adjacent make
    two groups with the same resource_id, and within a resource samples of
    one metric that are not adjacent make two groups with the same
    metric_name. *)
Lemma interleaved_samples_regrouped :
  (grouped_samples interleaved).*1 = ["r1"; "r2"; "r1"]
  ∧ (spec_grouped_samples interleaved).*1 = ["r1"; "r2"]
  ∧ grouped_samples interleaved ≠ spec_grouped_samples interleaved
  ∧ (λ rg, rg.2.*1) <$> grouped_samples interleaved_metrics
    = [["cpu"; "cpu_util"; "cpu"]]
  ∧ (λ rg, rg.2.*1) <$> spec_grouped_samples interleaved_metrics
    = [["cpu"; "cpu_util"]].
Proof.
  repeat split; try (vm_compute; reflexivity).
  intros H%(f_equal length). vm_compute in H. discriminate.
Qed.

(** C4 as stated fails: 404, then 409 on the resource, then 201 on the
    entity, and the retried post answers 500.  The error is logged and the
    unit stops after four requests, without the update. *)
Lemma entity_missing_failed_retry_no_update :
  let w := start [404; 409; 201; 500]%Z in
  let post := unit_post dispatcher instance "r1" "cpu" [cpu_r1] in
  let create := unit_create dispatcher instance "r1" cpu_r1 in
  let create_entity := unit_create_entity dispatcher instance "r1" "cpu" in
  let update := unit_update dispatcher instance "r1" cpu_r1 in
  let result := _process_samples dispatcher instance "r1" "cpu" [cpu_r1]
                  true w in
  requests_request post (remote w) = (mkResponse 404 "", [409; 201; 500]%Z)
  ∧ requests_request create [409; 201; 500]%Z
    = (mkResponse 409 "", [201; 500]%Z)
  ∧ requests_request create_entity [201; 500]%Z = (mkResponse 201 "", [500]%Z)
  ∧ calls result.2 = [post; create; create_entity; post]
  ∧ calls result.2 ≠ [post; create; create_entity; post; update]
  ∧ LOG result.2
    = [(DEBUG, EntityDoesntExist "cpu" "r1" 404); (DEBUG, ResourceExists "r1");
       (DEBUG, EntityCreated "cpu" "r1");
       (ERROR, FailToPostMeasure "cpu" "r1" 500 "")].
Proof.
  cbv zeta. repeat split; try (vm_compute; reflexivity).
  intros H%(f_equal length). vm_compute in H. discriminate.
Qed.

(** Two extensions owning one metric: the second one is handed the drained
    group; its post carries no measure and [samples[-1]] raises. *)
Example second_owner_gets_drained_group :
  let both := mkGnocchiDispatcher "http://localhost:8041" "low"
                [instance; mkExtension "vm" (obj instance)] in
  let result := record_metering_data both [cpu_r1] (start [200; 200; 200]%Z) in
  result.1 = Raise IndexError
  ∧ calls result.2
    = [unit_post both instance "r1" "cpu" [cpu_r1];
       unit_update both instance "r1" cpu_r1;
       unit_post both (mkExtension "vm" (obj instance)) "r1" "cpu" []].
Proof. cbv zeta. split; vm_compute; reflexivity. Qed.

(** The flag is cleared for the unit that created the resource only: the
    next metric group of the same resource starts with it set again and
    updates the resource. *)
Example created_resource_next_unit_updates :
  let result := record_metering_data dispatcher [cpu_r1; util_r1]
                  (start [404; 201; 200; 200; 200]%Z) in
  result.1 = Return ()
  ∧ calls result.2
    = [unit_post dispatcher instance "r1" "cpu" [cpu_r1];
       unit_create dispatcher instance "r1" cpu_r1;
       unit_post dispatcher instance "r1" "cpu" [cpu_r1];
       unit_post dispatcher instance "r1" "cpu_util" [util_r1];
       unit_update dispatcher instance "r1" util_r1].
Proof. cbv zeta. split; vm_compute; reflexivity. Qed.

(** ** The theorems at concrete inputs *)

Lemma process_samples_resource_missing_witness :
  calls (_process_samples dispatcher instance "r1" "cpu" [cpu_r1] true
           (start [404; 201; 200]%Z)).2
  = [unit_post dispatcher instance "r1" "cpu" [cpu_r1];
     unit_create dispatcher instance "r1" cpu_r1;
     unit_post dispatcher instance "r1" "cpu" [cpu_r1]].
Proof.
  apply (process_samples_resource_missing dispatcher
           (start [404; 201; 200]%Z) instance "r1" "cpu" [cpu_r1] cpu_r1 true
           (mkResponse 404 "") (mkResponse 201 "")
           [201; 200]%Z [200]%Z); reflexivity.
Defined.

Lemma process_samples_entity_race_witness :
  let result := _process_samples dispatcher instance "r1" "cpu" [cpu_r1] true
                  (start [404; 409; 409; 200]%Z) in
  calls result.2
  = [unit_post dispatcher instance "r1" "cpu" [cpu_r1];
     unit_create dispatcher instance "r1" cpu_r1;
     unit_create_entity dispatcher instance "r1" "cpu";
     unit_post dispatcher instance "r1" "cpu" [cpu_r1];
     unit_update dispatcher instance "r1" cpu_r1]
  ∧ result.1 = Return ().
Proof.
  apply (process_samples_entity_race dispatcher
           (start [404; 409; 409; 200]%Z) instance "r1" "cpu" [cpu_r1] cpu_r1
           (mkResponse 404 "") (mkResponse 409 "") (mkResponse 409 "")
           (mkResponse 200 "")
           [409; 409; 200]%Z [409; 200]%Z [200]%Z []); reflexivity.
Defined.

Lemma process_samples_entity_missing_witness :
  let result := _process_samples dispatcher instance "r1" "cpu" [cpu_r1] true
                  (start [404; 409; 201; 200]%Z) in
  calls result.2
  = [unit_post dispatcher instance "r1" "cpu" [cpu_r1];
     unit_create dispatcher instance "r1" cpu_r1;
     unit_create_entity dispatcher instance "r1" "cpu";
     unit_post dispatcher instance "r1" "cpu" [cpu_r1];
     unit_update dispatcher instance "r1" cpu_r1]
  ∧ result.1 = Return ().
Proof.
  apply (process_samples_entity_missing dispatcher
           (start [404; 409; 201; 200]%Z) instance "r1" "cpu" [cpu_r1] cpu_r1
           (mkResponse 404 "") (mkResponse 409 "") (mkResponse 201 "")
           (mkResponse 200 "")
           [409; 201; 200]%Z [201; 200]%Z [200]%Z []); reflexivity.
Defined.

Lemma retry_post_is_initial_post_witness :
  let result := _process_samples dispatcher instance "r1" "cpu"
                  [cpu_r1; cpu_r1_later] true
                  (start [404; 409; 409; 500]%Z) in
  ∃ initial retry,
    calls result.2 !! 0 = Some initial
    ∧ calls result.2 !! 3 = Some retry
    ∧ retry = initial
    ∧ data retry
      = json_dumps (measure_attributes_of [cpu_r1; cpu_r1_later])
    ∧ data initial
      = json_dumps (measure_attributes_of [cpu_r1; cpu_r1_later]).
Proof.
  apply (retry_post_is_initial_post dispatcher
           (start [404; 409; 409; 500]%Z) instance "r1" "cpu"
           [cpu_r1; cpu_r1_later] cpu_r1_later true
           (mkResponse 404 "") (mkResponse 409 "") (mkResponse 409 "")
           [409; 409; 500]%Z [409; 500]%Z [500]%Z);
    try reflexivity.
  right. split; [reflexivity|]. right. reflexivity.
Defined.

Lemma record_metering_data_steady_witness :
  let result := record_metering_data dispatcher [cpu_r1; cpu_r1_later]
                  (start [204; 500]%Z) in
  calls result.2
  = [unit_post dispatcher instance "r1" "cpu" [cpu_r1; cpu_r1_later];
     unit_update dispatcher instance "r1" cpu_r1_later]
  ∧ result.1 = Return ().
Proof.
  apply (record_metering_data_steady dispatcher (start [204; 500]%Z)
           [cpu_r1; cpu_r1_later] cpu_r1_later "r1" "cpu" instance
           (mkResponse 204 "") [500]%Z);
    try reflexivity.
  repeat constructor.
Defined.

Lemma record_metering_data_skips_unowned_witness :
  (∀ w', for_ext dispatcher (mgmr dispatcher) "r1" "disk.read.bytes"
           [disk_r1] true w' = (Return (), w'))
  ∧ record_metering_data dispatcher [cpu_r1; disk_r1; util_r1] (start [])
    = dispatch_groups dispatcher
        [("r1", [("cpu", [cpu_r1]); ("cpu_util", [util_r1])])] (start []).
Proof.
  apply (record_metering_data_skips_unowned dispatcher (start [])
           [cpu_r1; disk_r1; util_r1] [] [] "r1" "disk.read.bytes" [disk_r1]
           [("cpu", [cpu_r1])] [("cpu_util", [util_r1])]).
  - reflexivity.
  - repeat constructor; intros H; vm_compute in H;
      repeat (apply elem_of_cons in H as [H|H]; [discriminate H|]);
      by apply elem_of_nil in H.
Defined.

Lemma grouping_of_adjacent_samples_witness :
  adjacent_keys resource_id [cpu_r1; cpu_r1_later; util_r1; cpu_r2] = true
  ∧ grouped_samples [cpu_r1; cpu_r1_later; util_r1; cpu_r2]
    = spec_grouped_samples [cpu_r1; cpu_r1_later; util_r1; cpu_r2].
Proof.
  split; [reflexivity|].
  apply (grouping_of_adjacent_samples
           [cpu_r1; cpu_r1_later; util_r1; cpu_r2]).
  - reflexivity.
  - repeat constructor.
Defined.

Lemma resource_attributes_variants_witness :
  _get_resource_attributes dispatcher instance "r1" "cpu"
    [cpu_r1; cpu_r1_later] true (start [])
  = (Return (get_resource_extra_attributes (obj instance) cpu_r1_later),
     start []).
Proof.
  apply (resource_attributes_variants dispatcher (start []) instance "r1"
           "cpu" [cpu_r1; cpu_r1_later] cpu_r1_later).
  reflexivity.
Defined.

(** * Further properties of the dispatcher *)

(** ** More on the grouping *)

Section more_grouping_facts.
Context {A K : Type} `{EqDecision K} (key : A → K).

(** [groupby] of a concatenation, when the key changes at the seam. *)
Lemma groupby_app (l1 l2 : list A) :
  (∀ x y, last l1 = Some x → head l2 = Some y → key x ≠ key y) →
  groupby key (l1 ++ l2) = groupby key l1 ++ groupby key l2.
Proof.
  induction l1 as [|x l1 IH]; [done|]. intros Hseam.
  cbn [app]. rewrite !groupby_cons. destruct l1 as [|x' l1].
  - cbn [app groupby]. destruct l2 as [|y l2]; [done|].
    pose proof (groupby_head_key key y l2) as Hhead.
    destruct (groupby key (y :: l2)) as [|[k' g] gs]; [done|].
    cbn in Hhead. injection Hhead as ->.
    rewrite decide_False; [done|]. intros E. by apply (Hseam x y).
  - rewrite IH by (intros x0 y Hx0; apply Hseam; by rewrite last_cons_cons).
    pose proof (groupby_head_key key x' l1) as Hhead.
    destruct (groupby key (x' :: l1)) as [|[k' g] gs]; [done|].
    cbn [app]. by case_decide.
Qed.

(** A group comes from the list: it is not empty and its elements are
    elements of the list with the key of the group. *)
Lemma elem_of_groupby (l : list A) (g : K * list A) :
  g ∈ groupby key l →
  g.2 ≠ [] ∧ Forall (λ x, x ∈ l ∧ key x = g.1) g.2.
Proof.
  intros Hg. pose proof (groupby_groups key l) as Hgroups.
  rewrite Forall_forall in Hgroups. destruct (Hgroups g Hg) as [Hne Hkey].
  split; [done|]. rewrite Forall_forall in Hkey.
  apply Forall_forall. intros x Hx. split; [|by apply Hkey].
  rewrite <-(concat_groupby key l). apply list_elem_of_In, in_concat.
  exists g.2. split; apply list_elem_of_In; [|done].
  by apply list_elem_of_fmap_2.
Qed.
End more_grouping_facts.

Lemma elem_of_grouped_samples (data : list Sample)
    (rg : string * list (string * list Sample)) (eg : string * list Sample) :
  rg ∈ grouped_samples data → eg ∈ rg.2 →
  eg.2 ≠ []
  ∧ Forall (λ s, s ∈ data ∧ resource_id s = rg.1 ∧ counter_name s = eg.1)
      eg.2.
Proof.
  unfold grouped_samples, resource_grouped_samples, entity_grouped_samples.
  intros (g & -> & Hg)%list_elem_of_fmap Heg. cbn in *.
  destruct (elem_of_groupby resource_id data g Hg) as [_ Hres].
  destruct (elem_of_groupby counter_name g.2 eg Heg) as [Hne Hmetric].
  split; [done|]. rewrite Forall_forall in Hres, Hmetric.
  apply Forall_forall. intros s Hs. destruct (Hmetric s Hs) as [Hin Hm].
  destruct (Hres s Hin) as [Hdata Hr]. done.
Qed.

(** X13: a batch can be cut where the resource changes: dispatching
    [data1 ++ data2] is dispatching [data1] and then, unless that raised,
    [data2] from the world it left. *)
Theorem record_metering_data_app {Store : Type} `{!Platform Store}
    (self : GnocchiDispatcher) (data1 data2 : list Sample)
    (w : World Store) :
  (∀ s1 s2, last data1 = Some s1 → head data2 = Some s2 →
            resource_id s1 ≠ resource_id s2) →
  record_metering_data self (data1 ++ data2) w
  = match record_metering_data self data1 w with
    | (Return _, w') => record_metering_data self data2 w'
    | (Raise e, w') => (Raise e, w')
    end.
Proof.
  intros Hseam. unfold record_metering_data, grouped_samples,
    resource_grouped_samples, dispatch_groups.
  rewrite (groupby_app resource_id data1 data2 Hseam), fmap_app.
  apply for_each_app.
Qed.

(** ** Failures of a unit *)

Section failure_facts.
Context {Store : Type} `{!Platform Store} (self : GnocchiDispatcher).

(** Decide the tests on a status known not to be 2xx nor [code]. *)
Ltac status_fails Hcode H :=
  rewrite ?(proj2 (Z.eqb_neq _ _) Hcode), ?(not_2xx_true _ H);
  cbv beta iota zeta.

Ltac finish_world :=
  cbn [remote calls LOG fst snd]; rewrite <-?app_assoc; done.

(** X1: the first post answers neither 404 nor 2xx.  The unit stops there:
    one request, the failure logged as an error with the status and the
    text of the answer, and nothing raised; it holds for a group without
    samples too. *)
Theorem process_samples_post_fails (w : World Store) (ext : Extension)
    (resource_id entity_name : string) (samples : list Sample)
    (flag : bool) (r1 : Response) (s1 : Store) :
  let post := unit_post self ext resource_id entity_name samples in
  requests_request post (remote w) = (r1, s1) →
  status_code r1 ≠ 404%Z → ¬ is_2xx (status_code r1) →
  _process_samples self ext resource_id entity_name samples flag w
  = (Return (),
     mkWorld s1 (calls w ++ [post])
       (LOG w ++ [(ERROR, FailToPostMeasure entity_name resource_id
                            (status_code r1) (text r1))])).
Proof.
  intros post H1 Hs1 Hn1. subst post. unfold unit_post in *.
  unfold_workflow. answer H1. status_fails Hs1 Hn1. finish_world.
Qed.

(** X2: the post answers 404 and the creation of the resource answers
    neither 409 nor 2xx.  The unit stops after two requests: the entity is
    not created, the post is not retried, the failure is logged as an error
    and nothing is raised. *)
Theorem process_samples_create_resource_fails (w : World Store)
    (ext : Extension) (resource_id entity_name : string)
    (samples : list Sample) (sample : Sample) (flag : bool)
    (r1 r2 : Response) (s1 s2 : Store) :
  let post := unit_post self ext resource_id entity_name samples in
  let create := unit_create self ext resource_id sample in
  last samples = Some sample →
  requests_request post (remote w) = (r1, s1) → status_code r1 = 404%Z →
  requests_request create s1 = (r2, s2) →
  status_code r2 ≠ 409%Z → ¬ is_2xx (status_code r2) →
  _process_samples self ext resource_id entity_name samples flag w
  = (Return (),
     mkWorld s2 (calls w ++ [post; create])
       (LOG w ++ [(DEBUG, EntityDoesntExist entity_name resource_id 404);
                  (ERROR, ResourceCreationFailed resource_id
                            (status_code r2) (text r2))])).
Proof.
  intros post create Hlast H1 Hs1 H2 Hs2 Hn2. subst post create.
  unfold unit_post, unit_create in *. unfold_workflow.
  answer H1. status_is Hs1. rewrite Hlast. answer H2. status_fails Hs2 Hn2.
  finish_world.
Qed.

(** X3: the post answers 404, the resource exists (409) and the creation of
    the entity answers neither 409 nor 2xx.  The unit stops after three
    requests, without retrying the post; the failure is logged as an error
    and nothing is raised. *)
Theorem process_samples_create_entity_fails (w : World Store)
    (ext : Extension) (resource_id entity_name : string)
    (samples : list Sample) (sample : Sample) (flag : bool)
    (r1 r2 r3 : Response) (s1 s2 s3 : Store) :
  let post := unit_post self ext resource_id entity_name samples in
  let create := unit_create self ext resource_id sample in
  let create_entity := unit_create_entity self ext resource_id entity_name in
  last samples = Some sample →
  requests_request post (remote w) = (r1, s1) → status_code r1 = 404%Z →
  requests_request create s1 = (r2, s2) → status_code r2 = 409%Z →
  requests_request create_entity s2 = (r3, s3) →
  status_code r3 ≠ 409%Z → ¬ is_2xx (status_code r3) →
  _process_samples self ext resource_id entity_name samples flag w
  = (Return (),
     mkWorld s3 (calls w ++ [post; create; create_entity])
       (LOG w ++ [(DEBUG, EntityDoesntExist entity_name resource_id 404);
                  (DEBUG, ResourceExists resource_id);
                  (ERROR, FailToCreateEntity entity_name resource_id
                            (status_code r3) (text r3))])).
Proof.
  intros post create create_entity Hlast H1 Hs1 H2 Hs2 H3 Hs3 Hn3.
  subst post create create_entity.
  unfold unit_post, unit_create, unit_create_entity in *. unfold_workflow.
  answer H1. status_is Hs1. rewrite Hlast. answer H2. status_is Hs2.
  answer H3. status_fails Hs3 Hn3. finish_world.
Qed.

(** X4: the post succeeds and the update of the resource answers anything
    but 2xx, a 404 or a 409 included: the measures stay posted, the failure
    of the update is logged as an error and nothing is raised. *)
Theorem process_samples_update_fails (w : World Store) (ext : Extension)
    (resource_id entity_name : string) (samples : list Sample)
    (sample : Sample) (r1 r2 : Response) (s1 s2 : Store) :
  let post := unit_post self ext resource_id entity_name samples in
  let update := unit_update self ext resource_id sample in
  last samples = Some sample →
  requests_request post (remote w) = (r1, s1) → is_2xx (status_code r1) →
  requests_request update s1 = (r2, s2) → ¬ is_2xx (status_code r2) →
  _process_samples self ext resource_id entity_name samples true w
  = (Return (),
     mkWorld s2 (calls w ++ [post; update])
       (LOG w ++ [(DEBUG, MeasurePosted entity_name resource_id);
                  (ERROR, ResourceUpdateFailed resource_id
                            (status_code r2) (text r2))])).
Proof.
  intros post update Hlast H1 Hs1 H2 Hn2. subst post update.
  unfold unit_post, unit_update in *. unfold_workflow.
  answer H1. status_2xx Hs1. rewrite Hlast. answer H2.
  rewrite (not_2xx_true _ Hn2). finish_world.
Qed.

(** X5: the post answers 404 and the resource is created.  The answer to
    the retried post decides the end of the unit: a second 404 is logged at
    debug level only and raised as [NoSuchEntity]; any other failure is
    logged as an error and swallowed; a 2xx is logged as posted. *)
Theorem process_samples_retry_outcome (w : World Store) (ext : Extension)
    (resource_id entity_name : string) (samples : list Sample)
    (sample : Sample) (flag : bool) (r1 r2 r3 : Response)
    (s1 s2 s3 : Store) :
  let post := unit_post self ext resource_id entity_name samples in
  let create := unit_create self ext resource_id sample in
  let result := _process_samples self ext resource_id entity_name samples
                  flag w in
  last samples = Some sample →
  requests_request post (remote w) = (r1, s1) → status_code r1 = 404%Z →
  requests_request create s1 = (r2, s2) → is_2xx (status_code r2) →
  requests_request post s2 = (r3, s3) →
  result.1
  = (if (status_code r3 =? 404)%Z then Raise NoSuchEntity else Return ())
  ∧ remote result.2 = s3
  ∧ LOG result.2
    = LOG w ++ [(DEBUG, EntityDoesntExist entity_name resource_id 404);
                (DEBUG, ResourceCreated resource_id);
                if (status_code r3 =? 404)%Z
                then (DEBUG, EntityDoesntExist entity_name resource_id 404)
                else if not_2xx (status_code r3)
                then (ERROR, FailToPostMeasure entity_name resource_id
                               (status_code r3) (text r3))
                else (DEBUG, MeasurePosted entity_name resource_id)].
Proof.
  intros post create result Hlast H1 Hs1 H2 Hs2 H3. subst post create result.
  unfold unit_post, unit_create in *. unfold_workflow.
  answer H1. status_is Hs1. rewrite Hlast. answer H2. status_2xx Hs2.
  answer H3.
  destruct (status_code r3 =? 404)%Z eqn:E404.
  { apply Z.eqb_eq in E404. rewrite E404. finish_world. }
  destruct (not_2xx (status_code r3)); finish_world.
Qed.

(** X6: a unit without samples, which is what a second owner of a metric is
    handed.  It posts an empty list of measures and issues nothing else.
    When the post answers 404, and when it answers 2xx with the flag set,
    [samples[-1]] raises [IndexError], which leaves the unit after the
    debug record of the post; any other answer is logged as an error and
    the unit returns. *)
Theorem process_samples_without_samples (w : World Store) (ext : Extension)
    (resource_id entity_name : string) (flag : bool) (r1 : Response)
    (s1 : Store) :
  let post := post_measure_request self (name ext) resource_id entity_name
                (JList []) in
  requests_request post (remote w) = (r1, s1) →
  _process_samples self ext resource_id entity_name [] flag w
  = (if (status_code r1 =? 404)%Z then
       (Raise IndexError,
        mkWorld s1 (calls w ++ [post])
          (LOG w ++ [(DEBUG, EntityDoesntExist entity_name resource_id
                               (status_code r1))]))
     else if not_2xx (status_code r1) then
       (Return (),
        mkWorld s1 (calls w ++ [post])
          (LOG w ++ [(ERROR, FailToPostMeasure entity_name resource_id
                               (status_code r1) (text r1))]))
     else
       (if flag then Raise IndexError else Return (),
        mkWorld s1 (calls w ++ [post])
          (LOG w ++ [(DEBUG, MeasurePosted entity_name resource_id)]))).
Proof.
  intros post H1. subst post. unfold_workflow.
  change (measure_attributes_of []) with (JList []). answer H1.
  destruct (status_code r1 =? 404)%Z; [finish_world|].
  destruct (not_2xx (status_code r1)); [finish_world|].
  destruct flag; finish_world.
Qed.
End failure_facts.

(** ** The loop over the extensions *)

Section more_loop_facts.
Context {Store : Type} `{!Platform Store} (self : GnocchiDispatcher).

Lemma for_each_noop {A : Type} (l : list A) (body : A → M Store ()) :
  (∀ x, x ∈ l → ∀ w, body x w = (Return (), w)) →
  ∀ w, for_each l body w = (Return (), w).
Proof.
  induction l as [|x l IH]; intros Hbody w; [done|].
  cbn [for_each]. cbv [mbind M_bind]. rewrite Hbody by left.
  apply IH. intros y Hy. apply Hbody. by right.
Qed.

Lemma for_ext_by_owners (exts : list Extension)
    (resource_id entity_name : string) (samples : list Sample) (flag : bool)
    (w : World Store) :
  for_ext self exts resource_id entity_name samples flag w
  = match owners entity_name exts with
    | [] => (Return (), w)
    | ext :: later =>
        match _process_samples self ext resource_id entity_name samples
                flag w with
        | (Return _, w') =>
            for_each later
              (λ ext', _process_samples self ext' resource_id entity_name []
                         flag) w'
        | (Raise e, w') => (Raise e, w')
        end
    end.
Proof.
  assert (∀ es w', for_ext self (owners entity_name es) resource_id
                     entity_name [] flag w'
                   = for_each (owners entity_name es)
                       (λ ext', _process_samples self ext' resource_id
                                  entity_name [] flag) w') as Hdrained.
  { induction es as [|e es IH]; intros w'; [done|]. unfold owners in *.
    rewrite filter_cons. case_decide as Hown; [|apply IH].
    cbn [for_ext for_each]. rewrite bool_decide_eq_true_2 by done.
    cbv [mbind M_bind].
    destruct (_process_samples _ _ _ _ _ _ _) as [[[]|e'] w'']; [apply IH|done]. }
  rewrite for_ext_owners.
  induction exts as [|ext exts IH]; [done|]. unfold owners in *.
  rewrite filter_cons. case_decide as Hown; [|exact IH].
  cbn [for_ext]. rewrite bool_decide_eq_true_2 by done. cbv [mbind M_bind].
  destruct (_process_samples _ _ _ _ _ _ _) as [[[]|e'] w'']; [|done].
  apply Hdrained.
Qed.

(** X7: the loop over the extensions hands the samples of the group to the
    first owner of the metric only; every later owner is run on an empty
    list, and an exception of one owner ends the loop. *)
Theorem for_ext_first_owner (exts : list Extension)
    (resource_id entity_name : string) (samples : list Sample) (flag : bool)
    (w : World Store) :
  for_ext self exts resource_id entity_name samples flag w
  = match owners entity_name exts with
    | [] => (Return (), w)
    | ext :: later =>
        match _process_samples self ext resource_id entity_name samples
                flag w with
        | (Return _, w') =>
            for_each later
              (λ ext', _process_samples self ext' resource_id entity_name []
                         flag) w'
        | (Raise e, w') => (Raise e, w')
        end
    end.
Proof. apply for_ext_by_owners. Qed.

(** X14: a batch none of whose metrics is owned by a registered extension
    is dropped whole: no request, no log record, nothing raised. *)
Theorem record_metering_data_nothing_owned (data : list Sample)
    (w : World Store) :
  Forall (λ s, owners (counter_name s) (mgmr self) = []) data →
  record_metering_data self data w = (Return (), w).
Proof.
  intros Hdata. unfold record_metering_data, dispatch_groups.
  apply for_each_noop. intros rg Hrg w'.
  apply for_each_noop. intros eg Heg w''.
  destruct (elem_of_grouped_samples data rg eg Hrg Heg) as [Hne Hss].
  destruct eg as [metric [|s ss]]; [done|]. cbn [fst snd] in *.
  apply Forall_cons in Hss as [(Hin & _ & Hm) _].
  rewrite Forall_forall in Hdata. specialize (Hdata s Hin).
  rewrite for_ext_owners, <-Hm, Hdata. done.
Qed.
End more_loop_facts.

(** ** The requests of a unit and of a batch *)

Section issued_facts.
Context {Store : Type} `{!Platform Store} (self : GnocchiDispatcher).

Lemma unit_issued (w : World Store) (ext : Extension)
    (resource_id entity_name : string) (samples : list Sample)
    (flag : bool) :
  let post := unit_post self ext resource_id entity_name samples in
  ∃ issued,
    calls (_process_samples self ext resource_id entity_name samples
             flag w).2 = calls w ++ post :: issued
    ∧ (length issued ≤ 4)%nat
    ∧ Forall (λ r, r = post
                   ∨ ∃ sample, last samples = Some sample
                       ∧ r ∈ [unit_create self ext resource_id sample;
                              unit_create_entity self ext resource_id
                                entity_name;
                              unit_update self ext resource_id sample])
        issued.
Proof.
  intros post. subst post.
  unfold unit_post, unit_create, unit_create_entity, unit_update.
  unfold_workflow.
  destruct (last samples) as [sample|] eqn:Hlast.
  all: repeat first
    [ progress cbn [remote calls LOG fst snd]
    | match goal with
      | |- context [requests_request ?r ?s] =>
          destruct (requests_request r s) as [? ?]
      | |- context [if ?b then _ else _] => destruct b
      end ].
  all: rewrite <-?app_assoc; cbn [app]; eexists; split; [reflexivity|].
  all: split; [cbn; lia|].
  all: repeat (apply Forall_cons; split;
         [first [by left | right; exists sample; split; [done|set_solver]]|]).
  all: by apply Forall_nil.
Qed.

(** X10: a unit issues between one and five requests.  The first is the
    post of the measures; the others are that post again, the creation of
    the resource, the creation of the entity or the update of the
    resource, the attributes being those of the last sample. *)
Theorem process_samples_issued (w : World Store) (ext : Extension)
    (resource_id entity_name : string) (samples : list Sample)
    (flag : bool) :
  let post := unit_post self ext resource_id entity_name samples in
  ∃ issued,
    calls (_process_samples self ext resource_id entity_name samples
             flag w).2 = calls w ++ post :: issued
    ∧ (length issued ≤ 4)%nat
    ∧ Forall (λ r, r = post
                   ∨ ∃ sample, last samples = Some sample
                       ∧ r ∈ [unit_create self ext resource_id sample;
                              unit_create_entity self ext resource_id
                                entity_name;
                              unit_update self ext resource_id sample])
        issued.
Proof. apply unit_issued. Qed.
End issued_facts.

(** ** What can leave a batch *)

Section batch_facts.
Context {Store : Type} `{!Platform Store} (self : GnocchiDispatcher).

Lemma for_each_elem_outcome {A : Type} (l : list A) (body : A → M Store ())
    (P : Outcome () → Prop) :
  P (Return ()) → (∀ x, x ∈ l → ∀ w, P (body x w).1) →
  ∀ w, P (for_each l body w).1.
Proof.
  intros Hret. induction l as [|x l IH]; intros Hbody w; [done|].
  cbn [for_each]. cbv [mbind M_bind].
  pose proof (Hbody x ltac:(left) w) as Hx.
  destruct (body x w) as [[[]|e] w']; [|exact Hx].
  apply IH. intros y Hy. apply Hbody. by right.
Qed.

Lemma process_samples_outcome_samples (w : World Store) (ext : Extension)
    (resource_id entity_name : string) (samples : list Sample)
    (flag : bool) :
  samples ≠ [] →
  let outcome := (_process_samples self ext resource_id entity_name samples
                    flag w).1 in
  outcome = Return () ∨ outcome = Raise NoSuchEntity.
Proof.
  intros Hne. destruct (last samples) as [sample|] eqn:Hlast.
  2:{ by apply last_None in Hlast. }
  unfold_workflow. rewrite Hlast.
  repeat first
    [ progress cbn [remote calls LOG fst snd]
    | match goal with
      | |- context [requests_request ?r ?s] =>
          destruct (requests_request r s) as [? ?]
      | |- context [if ?b then _ else _] => destruct b
      end ];
    auto.
Qed.

(** In this model, where a request always gets an answer, a batch none of
    whose metrics has more than one owner returns or raises the
    [NoSuchEntity] of a retried post. *)
Lemma single_owner_outcome (data : list Sample)
    (w : World Store) :
  Forall (λ s, (length (owners (counter_name s) (mgmr self)) ≤ 1)%nat) data →
  let outcome := (record_metering_data self data w).1 in
  outcome = Return () ∨ outcome = Raise NoSuchEntity.
Proof.
  intros Hdata. unfold record_metering_data, dispatch_groups.
  apply (for_each_elem_outcome _ _
           (λ o, o = Return () ∨ o = Raise NoSuchEntity)); [by left|].
  intros rg Hrg w'.
  apply (for_each_elem_outcome _ _
           (λ o, o = Return () ∨ o = Raise NoSuchEntity)); [by left|].
  intros eg Heg w''.
  destruct (elem_of_grouped_samples data rg eg Hrg Heg) as [Hne Hss].
  rewrite for_ext_by_owners.
  assert (length (owners eg.1 (mgmr self)) ≤ 1)%nat as Hown.
  { destruct eg as [metric [|s ss]]; [done|]. cbn [fst snd] in *.
    apply Forall_cons in Hss as [(Hin & _ & Hm) _].
    rewrite Forall_forall in Hdata. rewrite <-Hm. by apply Hdata. }
  destruct (owners eg.1 (mgmr self)) as [|ext [|ext' later]];
    [by left| |cbn in Hown; lia].
  pose proof (process_samples_outcome_samples w'' ext rg.1 eg.1 eg.2 true Hne)
    as Hunit.
  destruct (_process_samples _ _ _ _ _ _ _) as [[[]|e] w3]; [by left|].
  exact Hunit.
Qed.

(** X8: when no metric of the batch has more than one owner, every unit
    [record_metering_data] runs is run on the samples of its group, which
    are never empty: no unit is handed a drained group, so the
    [IndexError] of [samples[-1]] is not raised. *)
Theorem record_metering_data_single_owner_units (data : list Sample)
    (w : World Store) :
  Forall (λ s, (length (owners (counter_name s) (mgmr self)) ≤ 1)%nat) data →
  (∀ rg eg w', rg ∈ grouped_samples data → eg ∈ rg.2 →
     eg.2 ≠ []
     ∧ for_ext self (mgmr self) rg.1 eg.1 eg.2 true w'
       = match owners eg.1 (mgmr self) with
         | [] => (Return (), w')
         | ext :: _ => _process_samples self ext rg.1 eg.1 eg.2 true w'
         end)
  ∧ (record_metering_data self data w).1 ≠ Raise IndexError.
Proof.
  intros Hdata. split.
  - intros rg eg w' Hrg Heg.
    destruct (elem_of_grouped_samples data rg eg Hrg Heg) as [Hne Hss].
    split; [done|]. rewrite for_ext_by_owners.
    assert (length (owners eg.1 (mgmr self)) ≤ 1)%nat as Hown.
    { destruct eg as [metric [|s ss]]; [done|]. cbn [fst snd] in *.
      apply Forall_cons in Hss as [(Hin & _ & Hm) _].
      rewrite Forall_forall in Hdata. rewrite <-Hm. by apply Hdata. }
    destruct (owners eg.1 (mgmr self)) as [|ext [|ext' later]];
      [done| |cbn in Hown; lia].
    by destruct (_process_samples _ _ _ _ _ _ _) as [[[]|e] w3].
  - destruct (single_owner_outcome data w Hdata) as [H|H]; by rewrite H.
Qed.
End batch_facts.

(** ** The wire form of the requests *)

Section wire_facts.
Context {Store : Type} `{!Platform Store} (self : GnocchiDispatcher).

Lemma append_empty_r (s : string) : s +:+ "" = s.
Proof.
  induction s as [|c s IH]; [done|].
  change (String c (s +:+ "") = String c s). by rewrite IH.
Qed.

Lemma for_each_issued {A : Type} (l : list A) (body : A → M Store ())
    (P : Request → Prop) :
  (∀ x, x ∈ l → ∀ w, ∃ issued,
      calls (body x w).2 = calls w ++ issued ∧ Forall P issued) →
  ∀ w, ∃ issued,
    calls (for_each l body w).2 = calls w ++ issued ∧ Forall P issued.
Proof.
  induction l as [|x l IH]; intros Hbody w.
  { exists []. by rewrite app_nil_r. }
  cbn [for_each]. cbv [mbind M_bind].
  destruct (Hbody x ltac:(left) w) as (issued & Hcalls & HP).
  destruct (body x w) as [[[]|e] w']; cbn [snd] in *; [|by exists issued].
  destruct (IH (λ y Hy, Hbody y ltac:(by right)) w')
    as (issued' & Hcalls' & HP').
  exists (issued ++ issued'). split.
  - by rewrite Hcalls', Hcalls, app_assoc.
  - by apply Forall_app.
Qed.

Lemma unit_resource_requests (ext : Extension)
    (resource_id entity_name : string) (samples : list Sample) (r : Request) :
  ext ∈ mgmr self →
  r = unit_post self ext resource_id entity_name samples
  ∨ (∃ sample, last samples = Some sample
       ∧ r ∈ [unit_create self ext resource_id sample;
              unit_create_entity self ext resource_id entity_name;
              unit_update self ext resource_id sample]) →
  resource_request self r.
Proof.
  intros Hext [->|(sample & _ & Hr)].
  - split; [done|]. by eexists ext, _.
  - rewrite !elem_of_cons, elem_of_nil in Hr.
    destruct Hr as [->|[->|[->|[]]]]; (split; [done|]).
    + exists ext, "". split; [done|]. cbn [url unit_create create_resource_request].
      by rewrite append_empty_r.
    + by eexists ext, _.
    + by eexists ext, _.
Qed.

(** X11: every request [record_metering_data] issues, on any batch and
    against any store, carries the JSON content type and is addressed
    under [<gnocchi_url>/v1/resource/<type>] for the type of a registered
    extension. *)
Theorem record_metering_data_requests (data : list Sample) (w : World Store) :
  ∃ issued,
    calls (record_metering_data self data w).2 = calls w ++ issued
    ∧ Forall (resource_request self) issued.
Proof.
  unfold record_metering_data, dispatch_groups.
  apply for_each_issued. intros rg _ w'.
  apply for_each_issued. intros eg _ w''.
  generalize (eg.2). intros samples.
  assert (∀ exts, exts ⊆ mgmr self → ∀ samples w3, ∃ issued,
            calls (for_ext self exts rg.1 eg.1 samples true w3).2
            = calls w3 ++ issued
            ∧ Forall (resource_request self) issued) as Hexts.
  { induction exts as [|ext exts IH]; intros Hsub ss w3.
    { exists []. by rewrite app_nil_r. }
    assert (exts ⊆ mgmr self) as Hsub'.
    { intros e He. apply Hsub. by right. }
    cbn [for_ext]. case_bool_decide; [|by apply IH].
    cbv [mbind M_bind].
    destruct (unit_issued self w3 ext rg.1 eg.1 ss true)
      as (issued & Hcalls & _ & HP).
    assert (Forall (resource_request self)
              (unit_post self ext rg.1 eg.1 ss :: issued)) as Hwire.
    { apply Forall_cons. split.
      - apply (unit_resource_requests ext rg.1 eg.1 ss); [|by left].
        apply Hsub. left.
      - eapply Forall_impl; [exact HP|]. intros r Hr.
        apply (unit_resource_requests ext rg.1 eg.1 ss); [|done].
        apply Hsub. left. }
    destruct (_process_samples _ _ _ _ _ _ _) as [[[]|e] w4]; cbn [snd] in *.
    - destruct (IH Hsub' [] w4) as (issued' & Hcalls' & HP').
      eexists. split; [by rewrite Hcalls', Hcalls, <-app_assoc|].
      by apply Forall_app.
    - by eexists. }
  by apply Hexts.
Qed.
End wire_facts.

(** ** A store that accepts everything *)

Section accepting_facts.
Context {Store : Type} `{!Platform Store} (self : GnocchiDispatcher).

Lemma for_each_calls {A : Type} (l : list A) (body : A → M Store ())
    (f : A → list Request) :
  (∀ x, x ∈ l → ∀ w,
     (body x w).1 = Return () ∧ calls (body x w).2 = calls w ++ f x) →
  ∀ w, (for_each l body w).1 = Return ()
       ∧ calls (for_each l body w).2 = calls w ++ (x ← l; f x).
Proof.
  induction l as [|x l IH]; intros Hbody w.
  { split; [done|]. cbn. by rewrite app_nil_r. }
  cbn [for_each]. cbv [mbind M_bind].
  destruct (Hbody x ltac:(left) w) as [Hout Hcalls].
  destruct (body x w) as [[[]|e] w']; cbn [fst snd] in *; [|done].
  destruct (IH (λ y Hy, Hbody y ltac:(by right)) w') as [Hout' Hcalls'].
  split; [done|]. rewrite Hcalls', Hcalls, <-app_assoc. done.
Qed.

(** X12: against a store that answers 2xx to every request, and when no
    metric of the batch has more than one owner, [record_metering_data]
    returns normally having issued, for each metric group in the order of
    the batch, the post of the measures of the group followed by the
    update of its resource, and nothing else. *)
Theorem record_metering_data_accepting_store (data : list Sample)
    (w : World Store) :
  (∀ r s, is_2xx (status_code (requests_request r s).1)) →
  Forall (λ s, (length (owners (counter_name s) (mgmr self)) ≤ 1)%nat) data →
  (record_metering_data self data w).1 = Return ()
  ∧ calls (record_metering_data self data w).2
    = calls w ++ steady_calls self (grouped_samples data).
Proof.
  intros Hstore Hdata. unfold record_metering_data, dispatch_groups.
  unfold steady_calls. apply for_each_calls. intros rg Hrg w'.
  apply for_each_calls. intros eg Heg w''.
  destruct (elem_of_grouped_samples data rg eg Hrg Heg) as [Hne Hss].
  rewrite for_ext_by_owners.
  assert (length (owners eg.1 (mgmr self)) ≤ 1)%nat as Hown.
  { destruct eg as [metric [|s ss]]; [done|]. cbn [fst snd] in *.
    apply Forall_cons in Hss as [(Hin & _ & Hm) _].
    rewrite Forall_forall in Hdata. rewrite <-Hm. by apply Hdata. }
  destruct (owners eg.1 (mgmr self)) as [|ext [|ext' later]];
    [|clear Hown|cbn in Hown; lia].
  { split; [done|]. cbn. by rewrite app_nil_r. }
  destruct (last eg.2) as [sample|] eqn:Hlast.
  2:{ by apply last_None in Hlast. }
  destruct (requests_request (unit_post self ext rg.1 eg.1 eg.2) (remote w''))
    as [r1 s1] eqn:H1.
  pose proof (Hstore (unit_post self ext rg.1 eg.1 eg.2) (remote w'')) as Hs1.
  rewrite H1 in Hs1. cbn [fst] in Hs1.
  destruct (unit_steady self w'' ext rg.1 eg.1 eg.2 sample true r1 s1 Hlast
              H1 Hs1) as [Hcalls Hout].
  destruct (_process_samples _ _ _ _ _ _ _) as [o w3]. cbn [fst snd] in *.
  subst o. cbn [for_each]. split; [done|].
  cbv [mret M_ret]. cbn [snd]. rewrite Hcalls. cbn [mbind list_bind]. unfold steady_unit_calls.
  rewrite Hlast. by rewrite app_nil_r.
Qed.
End accepting_facts.

(** X15: the test [int(r.status_code / 100) != 2] accepts exactly the
    statuses from 200 to 299, whether the division floors (Python 2) or the
    conversion truncates (Python 3), negative statuses included. *)
Theorem not_2xx_division (status : Z) :
  (not_2xx status = false ↔ (200 ≤ status < 300)%Z)
  ∧ not_2xx status = negb (status ÷ 100 =? 2)%Z.
Proof.
  pose proof (is_2xx_truncated status) as Ht.
  pose proof (is_2xx_range status) as Hr. unfold is_2xx in Ht, Hr.
  unfold not_2xx. split.
  - by rewrite negb_false_iff, Z.eqb_eq.
  - f_equal.
    destruct (Z.eqb_spec (status / 100) 2), (Z.eqb_spec (status ÷ 100) 2);
      first [done | exfalso; tauto].
Qed.

(** ** The registration of applications *)

Section bootstrap_facts.
Import App.
Context {Conf Storage Indexer Root : Type}
  `{!Services Conf Storage Indexer Root}.

Local Abbreviation World := (App.World Conf Storage Indexer).
Local Abbreviation WSGIApp := (App.WSGIApp Conf Storage Indexer Root).

Lemma load_app_register_missing (conf : Conf) (indexer : option Indexer)
    (storage : option Storage) (flag : bool) (w : World) :
  match resolved_path conf with
  | None => True
  | Some path => path ∉ files w
  end →
  load_app_register conf indexer storage flag w
  = (Raise (ConfigFilesNotFoundError [paste_config conf]),
     with_indexer conf indexer w).
Proof.
  unfold resolved_path, load_app_register, with_indexer. intros Hmissing.
  destruct indexer as [i|]; cbv [bind ret indexer_connect path_exists raise];
    cbn [APPCONFIGS files drawn connected LOG].
  all: destruct (if isabs (paste_config conf) then _ else _) as [path|];
    cbn [negb].
  all: rewrite ?bool_decide_eq_false_2 by done; cbn [negb].
  all: rewrite ?app_nil_r; by destruct w.
Qed.

(** X16: when the paste configuration cannot be found (no path, or a path
    that does not exist), [load_app] raises [ConfigFilesNotFoundError] with
    the name as configured.  Nothing is registered in [APPCONFIGS], no
    identifier is drawn and paste is not called; a default indexer has
    nevertheless been connected by then. *)
Theorem load_app_missing_config (conf : Conf) (appname : option string)
    (indexer : option Indexer) (storage : option Storage) (flag : bool)
    (w : World) :
  match resolved_path conf with
  | None => True
  | Some path => path ∉ files w
  end →
  load_app conf appname indexer storage flag w
  = (Raise (ConfigFilesNotFoundError [paste_config conf]),
     with_indexer conf indexer w).
Proof.
  intros Hmissing. unfold load_app. cbv [bind].
  by rewrite load_app_register_missing.
Qed.

Lemma load_app_register_found (conf : Conf) (indexer : option Indexer)
    (storage : option Storage) (flag : bool) (w : World) (path : string) :
  resolved_path conf = Some path → path ∈ files w →
  let w1 := with_indexer conf indexer w in
  let configkey := uuid4 (drawn w) in
  let config := mkConfig conf (default (indexer_get_driver conf) indexer)
                  (default (storage_get_driver conf) storage) flag in
  load_app_register conf indexer storage flag w
  = (Return (path, configkey),
     mkWorld (<[configkey := config]> (APPCONFIGS w)) (files w)
       (S (drawn w)) (connected w1)
       (LOG w ++ ["WSGI config used: " +:+ path])).
Proof.
  unfold resolved_path, load_app_register, with_indexer. intros Hpath Hfile.
  destruct indexer as [i|], storage as [s|];
    cbv [bind ret indexer_connect path_exists raise str_uuid4 appconfigs_set
         log_info];
    cbn [APPCONFIGS files drawn connected LOG default].
  all: rewrite Hpath; cbn [negb].
  all: rewrite bool_decide_eq_true_2 by done; cbn [negb].
  all: by rewrite ?app_nil_r.
Qed.

(** X17: when the paste configuration is found, [load_app] stores the
    objects of the application (the drivers given, or the default ones)
    under a newly drawn key and calls paste with that key; from then on
    [app_factory], called with that key, builds the application from
    exactly those objects. *)
Theorem load_app_registers (conf : Conf) (appname : option string)
    (indexer : option Indexer) (storage : option Storage) (flag : bool)
    (w : World) (path : string) :
  resolved_path conf = Some path → path ∈ files w →
  let configkey := uuid4 (drawn w) in
  let config := mkConfig conf (default (indexer_get_driver conf) indexer)
                  (default (storage_get_driver conf) storage) flag in
  ∃ w',
    load_app conf appname indexer storage flag w
    = deploy_loadapp ("config:" +:+ path) appname
        {[ "configkey" := configkey ]} w'
    ∧ APPCONFIGS w' = <[configkey := config]> (APPCONFIGS w)
    ∧ ∀ global_config local_conf,
        global_config !! "configkey" = Some configkey →
        app_factory global_config local_conf w'
        = (Return (_setup_app (local_conf !! "root") conf
                     (default (indexer_get_driver conf) indexer)
                     (default (storage_get_driver conf) storage) flag), w').
Proof.
  intros Hpath Hfile configkey config. eexists. split; [|split].
  - unfold load_app. cbv [bind].
    rewrite (load_app_register_found conf indexer storage flag w path Hpath
               Hfile). reflexivity.
  - done.
  - intros global_config local_conf Hkey. unfold app_factory.
    cbv [bind appconfigs_get]. rewrite Hkey. cbn [APPCONFIGS mbind option_bind].
    by rewrite lookup_insert_eq.
Qed.

(** X18: registering another application does not disturb the ones already
    registered: whatever [app_factory] built for a key before, it builds
    after, provided the key drawn for the newcomer is another one. *)
Theorem load_app_register_keeps_others (conf : Conf)
    (indexer : option Indexer) (storage : option Storage) (flag : bool)
    (w : World) (global_config : gmap string string)
    (local_conf : gmap string Root) (configkey : string) (app : WSGIApp) :
  global_config !! "configkey" = Some configkey →
  configkey ≠ uuid4 (drawn w) →
  app_factory global_config local_conf w = (Return app, w) →
  let w' := (load_app_register conf indexer storage flag w).2 in
  app_factory global_config local_conf w' = (Return app, w').
Proof.
  intros Hkey Hfresh Hbuilt w'. revert Hbuilt.
  unfold app_factory. cbv [bind appconfigs_get].
  rewrite Hkey. cbn [mbind option_bind]. intros Hbuilt.
  assert (APPCONFIGS w' !! configkey = APPCONFIGS w !! configkey) as ->.
  { subst w'. destruct (resolved_path conf) as [path|] eqn:Hpath.
    - destruct (decide (path ∈ files w)) as [Hfile|Hfile].
      + rewrite (load_app_register_found conf indexer storage flag w path
                   Hpath Hfile). cbn [snd APPCONFIGS].
        by rewrite lookup_insert_ne.
      + rewrite load_app_register_missing by (by rewrite Hpath). done.
    - rewrite load_app_register_missing by (by rewrite Hpath). done. }
  destruct (APPCONFIGS w !! configkey) as [config|]; [|done].
  by injection Hbuilt as <-.
Qed.

(** X19: [app_factory] called without a key, or with a key under which
    nothing is registered, raises [TypeError] and builds nothing. *)
Theorem app_factory_unknown_key (w : World)
    (global_config : gmap string string) (local_conf : gmap string Root) :
  match global_config !! "configkey" with
  | None => True
  | Some configkey => APPCONFIGS w !! configkey = None
  end →
  app_factory global_config local_conf w = (Raise TypeError, w).
Proof.
  unfold app_factory. cbv [bind appconfigs_get raise].
  destruct (global_config !! "configkey") as [configkey|];
    cbn [mbind option_bind]; [|done].
  by intros ->.
Qed.
End bootstrap_facts.

(** X9: whatever the batch and whatever the store answers,
    [record_metering_data] never lets out an [UnexpectedWorkflowError], nor
    one of the conflicts [ResourceAlreadyExists] and [EntityAlreadyExists],
    nor [NoSuchResource]. *)
Theorem record_metering_data_keeps_workflow_errors {Store : Type}
    `{!Platform Store} (self : GnocchiDispatcher) (data : list Sample)
    (w : World Store) :
  let outcome := (record_metering_data self data w).1 in
  (∀ m, outcome ≠ Raise (UnexpectedWorkflowError m))
  ∧ outcome ≠ Raise ResourceAlreadyExists
  ∧ outcome ≠ Raise EntityAlreadyExists
  ∧ outcome ≠ Raise NoSuchResource.
Proof.
  intros outcome.
  destruct (record_metering_data_outcome self data w) as [H|[H|H]];
    fold outcome in H; rewrite H; repeat split; try intros m; discriminate.
Qed.

(** ** The further theorems at concrete inputs *)

Lemma process_samples_post_fails_witness :
  _process_samples dispatcher instance "r1" "cpu" [cpu_r1] true
    (start [500]%Z)
  = (Return (),
     mkWorld [] [unit_post dispatcher instance "r1" "cpu" [cpu_r1]]
       [(ERROR, FailToPostMeasure "cpu" "r1" 500 "")]).
Proof.
  etrans.
  { apply (process_samples_post_fails dispatcher (start [500]%Z) instance "r1"
             "cpu" [cpu_r1] true (mkResponse 500 "") []);
      [reflexivity|discriminate|].
    rewrite is_2xx_range. cbn. lia. }
  reflexivity.
Defined.

Lemma process_samples_create_resource_fails_witness :
  _process_samples dispatcher instance "r1" "cpu" [cpu_r1] true
    (start [404; 500]%Z)
  = (Return (),
     mkWorld [] [unit_post dispatcher instance "r1" "cpu" [cpu_r1];
                 unit_create dispatcher instance "r1" cpu_r1]
       [(DEBUG, EntityDoesntExist "cpu" "r1" 404);
        (ERROR, ResourceCreationFailed "r1" 500 "")]).
Proof.
  etrans.
  { apply (process_samples_create_resource_fails dispatcher
             (start [404; 500]%Z) instance "r1" "cpu" [cpu_r1] cpu_r1 true
             (mkResponse 404 "") (mkResponse 500 "") [500]%Z []);
      [reflexivity|reflexivity|reflexivity|reflexivity|discriminate|].
    rewrite is_2xx_range. cbn. lia. }
  reflexivity.
Defined.

Lemma process_samples_create_entity_fails_witness :
  _process_samples dispatcher instance "r1" "cpu" [cpu_r1] true
    (start [404; 409; 403]%Z)
  = (Return (),
     mkWorld [] [unit_post dispatcher instance "r1" "cpu" [cpu_r1];
                 unit_create dispatcher instance "r1" cpu_r1;
                 unit_create_entity dispatcher instance "r1" "cpu"]
       [(DEBUG, EntityDoesntExist "cpu" "r1" 404);
        (DEBUG, ResourceExists "r1");
        (ERROR, FailToCreateEntity "cpu" "r1" 403 "")]).
Proof.
  etrans.
  { apply (process_samples_create_entity_fails dispatcher
             (start [404; 409; 403]%Z) instance "r1" "cpu" [cpu_r1] cpu_r1 true
             (mkResponse 404 "") (mkResponse 409 "") (mkResponse 403 "")
             [409; 403]%Z [403]%Z []);
      [reflexivity|reflexivity|reflexivity|reflexivity|reflexivity|reflexivity
      |discriminate|].
    rewrite is_2xx_range. cbn. lia. }
  reflexivity.
Defined.

Lemma process_samples_update_fails_witness :
  _process_samples dispatcher instance "r1" "cpu" [cpu_r1] true
    (start [200; 409]%Z)
  = (Return (),
     mkWorld [] [unit_post dispatcher instance "r1" "cpu" [cpu_r1];
                 unit_update dispatcher instance "r1" cpu_r1]
       [(DEBUG, MeasurePosted "cpu" "r1");
        (ERROR, ResourceUpdateFailed "r1" 409 "")]).
Proof.
  etrans.
  { apply (process_samples_update_fails dispatcher (start [200; 409]%Z)
             instance "r1" "cpu" [cpu_r1] cpu_r1 (mkResponse 200 "")
             (mkResponse 409 "") [409]%Z []);
      [reflexivity|reflexivity|reflexivity|reflexivity|].
    rewrite is_2xx_range. cbn. lia. }
  reflexivity.
Defined.

Lemma process_samples_retry_outcome_witness :
  let result := _process_samples dispatcher instance "r1" "cpu" [cpu_r1] true
                  (start [404; 201; 404]%Z) in
  result.1 = Raise NoSuchEntity
  ∧ remote result.2 = []
  ∧ LOG result.2
    = [(DEBUG, EntityDoesntExist "cpu" "r1" 404);
       (DEBUG, ResourceCreated "r1");
       (DEBUG, EntityDoesntExist "cpu" "r1" 404)].
Proof.
  apply (process_samples_retry_outcome dispatcher (start [404; 201; 404]%Z)
           instance "r1" "cpu" [cpu_r1] cpu_r1 true (mkResponse 404 "")
           (mkResponse 201 "") (mkResponse 404 "") [201; 404]%Z [404]%Z []);
    reflexivity.
Defined.

Lemma process_samples_without_samples_witness :
  _process_samples dispatcher instance "r1" "cpu" [] true (start [500]%Z)
  = (Return (),
     mkWorld []
       [post_measure_request dispatcher "instance" "r1" "cpu" (JList [])]
       [(ERROR, FailToPostMeasure "cpu" "r1" 500 "")])
  ∧ _process_samples dispatcher instance "r1" "cpu" [] true (start [204]%Z)
    = (Raise IndexError,
       mkWorld []
         [post_measure_request dispatcher "instance" "r1" "cpu" (JList [])]
         [(DEBUG, MeasurePosted "cpu" "r1")]).
Proof.
  split.
  - exact (process_samples_without_samples dispatcher (start [500]%Z)
             instance "r1" "cpu" true (mkResponse 500 "") [] eq_refl).
  - exact (process_samples_without_samples dispatcher (start [204]%Z)
             instance "r1" "cpu" true (mkResponse 204 "") [] eq_refl).
Defined.

Lemma record_metering_data_single_owner_units_witness :
  (record_metering_data dispatcher [cpu_r1; util_r1; disk_r1]
     (start [404; 201; 404]%Z)).1 ≠ Raise IndexError.
Proof.
  apply (record_metering_data_single_owner_units dispatcher
           [cpu_r1; util_r1; disk_r1] (start [404; 201; 404]%Z)).
  repeat constructor.
Defined.

Section accepting_example.
Local Existing Instance Accepting.accepting.

Lemma record_metering_data_accepting_store_witness :
  (record_metering_data dispatcher [cpu_r1; cpu_r1_later; util_r1; cpu_r2]
     Accepting.start).1 = Return ()
  ∧ calls (record_metering_data dispatcher
             [cpu_r1; cpu_r1_later; util_r1; cpu_r2] Accepting.start).2
    = [unit_post dispatcher instance "r1" "cpu" [cpu_r1; cpu_r1_later];
       unit_update dispatcher instance "r1" cpu_r1_later;
       unit_post dispatcher instance "r1" "cpu_util" [util_r1];
       unit_update dispatcher instance "r1" util_r1;
       unit_post dispatcher instance "r2" "cpu" [cpu_r2];
       unit_update dispatcher instance "r2" cpu_r2].
Proof.
  apply (record_metering_data_accepting_store dispatcher
           [cpu_r1; cpu_r1_later; util_r1; cpu_r2] Accepting.start).
  - intros r s. reflexivity.
  - repeat constructor.
Defined.
End accepting_example.

Lemma record_metering_data_app_witness :
  record_metering_data dispatcher ([cpu_r1; util_r1] ++ [cpu_r2])
    (start [404; 201]%Z)
  = match record_metering_data dispatcher [cpu_r1; util_r1]
            (start [404; 201]%Z) with
    | (Return _, w') => record_metering_data dispatcher [cpu_r2] w'
    | (Raise e, w') => (Raise e, w')
    end.
Proof.
  apply (record_metering_data_app dispatcher [cpu_r1; util_r1] [cpu_r2]
           (start [404; 201]%Z)).
  intros s1 s2 [= <-] [= <-]. discriminate.
Defined.

Lemma record_metering_data_nothing_owned_witness :
  record_metering_data dispatcher [disk_r1; disk_r1] (start [500]%Z)
  = (Return (), start [500]%Z).
Proof.
  apply (record_metering_data_nothing_owned dispatcher [disk_r1; disk_r1]
           (start [500]%Z)).
  repeat constructor.
Defined.

Lemma load_app_missing_config_witness :
  App.load_app "api-paste.ini" None None (Some "file-storage") true
    AppExample.bare
  = (App.Raise (App.ConfigFilesNotFoundError ["api-paste.ini"]),
     App.mkWorld ∅ ∅ 0 ["indexer-of-api-paste.ini"] []).
Proof.
  etrans.
  { apply (load_app_missing_config (Root:=string) "api-paste.ini" None None
             (Some "file-storage") true AppExample.bare).
    apply not_elem_of_empty. }
  reflexivity.
Defined.

Lemma load_app_registers_witness :
  ∃ w',
    App.load_app "api-paste.ini" None (Some "sql-indexer") None false
      AppExample.installed
    = App.deploy_loadapp "config:/etc/gnocchi/api-paste.ini" None
        {[ "configkey" := "uuid-0" ]} w'
    ∧ App.APPCONFIGS w'
      = {[ "uuid-0" := App.mkConfig "api-paste.ini" "sql-indexer"
                         "storage-of-api-paste.ini" false ]}
    ∧ ∀ global_config local_conf,
        global_config !! "configkey" = Some "uuid-0" →
        App.app_factory global_config local_conf w'
        = (App.Return (App._setup_app (local_conf !! "root") "api-paste.ini"
                         "sql-indexer" "storage-of-api-paste.ini" false), w').
Proof.
  exact (load_app_registers (Root:=string) "api-paste.ini" None
           (Some "sql-indexer") None false AppExample.installed
           "/etc/gnocchi/api-paste.ini" eq_refl
           (proj2 (elem_of_singleton _ _) eq_refl)).
Defined.

Lemma load_app_register_keeps_others_witness :
  let w := App.mkWorld
             {[ "first" := App.mkConfig "api-paste.ini" "sql-indexer"
                             "file-storage" true ]}
             {[ "/etc/gnocchi/api-paste.ini" ]} 0 [] [] in
  let w' := (App.load_app_register "api-paste.ini" None None false w).2 in
  App.app_factory {[ "configkey" := "first" ]} {[ "root" := "RootController" ]}
    w'
  = (App.Return (App._setup_app (Some "RootController") "api-paste.ini"
                   "sql-indexer" "file-storage" true), w').
Proof.
  intros w w'.
  refine (load_app_register_keeps_others (Root:=string) "api-paste.ini" None
            None false w {[ "configkey" := "first" ]}
            {[ "root" := "RootController" ]} "first"
            (App._setup_app (Some "RootController") "api-paste.ini"
               "sql-indexer" "file-storage" true) eq_refl _ eq_refl).
  vm_compute. discriminate.
Defined.

Lemma app_factory_unknown_key_witness :
  App.app_factory {[ "configkey" := "uuid-7" ]} (∅ : gmap string string)
    AppExample.installed
  = (App.Raise App.TypeError, AppExample.installed).
Proof.
  exact (app_factory_unknown_key AppExample.installed
           {[ "configkey" := "uuid-7" ]} ∅ eq_refl).
Defined.
